(** * Modbus to MQTT bridge: register decoding, poll cycle and publishing

    A shallow embedding of [src/config_parser.py], [src/modbus_poller.py],
    [src/mqtt_publisher.py] and the polling loop of [src/main.py], followed
    by the properties of the bridge that are established on it.

    Python integers are [Z]; Python floats are IEEE binary64 numbers,
    represented by [spec_float] with precision 53 and maximal exponent 1024;
    exceptions are explicit, in the [py] monad. *)

From Stdlib Require Import ZArith List Bool Lia.
From Stdlib Require Import Ascii Floats.SpecFloat.
From stdpp Require Import gmap strings list pretty.

Set Warnings "-clear-no-such-hyp".

Local Open Scope Z_scope.

(** ** Python values and exceptions *)

(** The exceptions the modelled code can meet. *)
Inductive exn : Type :=
  | ZeroDivisionError
  | OverflowError
  | ValueError
  | IndexError
  | KeyError
  | StructError
  | ModbusException
  | IOFault.

(** A Python computation: it returns a value or raises. *)
Inductive py (A : Type) : Type :=
  | Ret (a : A)
  | Raise (e : exn).

Arguments Ret {A} a.
Arguments Raise {A} e.

Definition py_bind {A B : Type} (c : py A) (k : A -> py B) : py B :=
  match c with
  | Ret a => k a
  | Raise e => Raise e
  end.

Notation "'let!' x ':=' c 'in' k" := (py_bind c (fun x => k))
  (at level 10, x name, c at level 100, k at level 200).

(** [try: c / except Exception: return None] for a body returning a
    value. *)
Definition try_or_None {A : Type} (c : py (option A)) : option A :=
  match c with
  | Ret o => o
  | Raise _ => None
  end.

(** A number as Python holds it. *)
Inductive pyval : Type :=
  | PInt (z : Z)
  | PFloat (f : spec_float).

(** ** Python floats *)

Module PyFloat.

Definition prec : Z := 53.
Definition emax : Z := 1024.

(** The float nearest to an integer, ties to even. *)
Definition nearest (z : Z) : spec_float := binary_normalize prec emax z 0 false.

Definition one : spec_float := Eval cbv in nearest 1.

Definition is_zero (f : spec_float) : bool :=
  match f with
  | S754_zero _ => true
  | _ => false
  end.

Definition is_finite (f : spec_float) : bool :=
  match f with
  | S754_zero _ | S754_finite _ _ _ => true
  | _ => false
  end.

(** [float(z)] for an int [z]: too large an int raises. *)
Definition of_int (z : Z) : py spec_float :=
  match nearest z with
  | S754_infinity _ => Raise OverflowError
  | f => Ret f
  end.

(** [float(v)]. *)
Definition of_val (v : pyval) : py spec_float :=
  match v with
  | PInt z => of_int z
  | PFloat f => Ret f
  end.

(** [x * y] on floats. *)
Definition mul (x y : spec_float) : spec_float := SFmul prec emax x y.

(** [x / y] on floats: a zero divisor raises. *)
Definition truediv (x y : spec_float) : py spec_float :=
  if is_zero y then Raise ZeroDivisionError else Ret (SFdiv prec emax x y).

(** [x != y] on floats. *)
Definition ne (x y : spec_float) : bool := negb (SFeqb x y).

(** [int(f)]: truncation towards zero; no integer for nan and the
    infinities. *)
Definition to_int (f : spec_float) : py Z :=
  match f with
  | S754_nan => Raise ValueError
  | S754_infinity _ => Raise OverflowError
  | S754_zero _ => Ret 0
  | S754_finite s m e => Ret (cond_Zopp s (Z.shiftl (Zpos m) e))
  end.

(** [f == n] for a float [f] and an int [n]: Python compares the two
    numbers exactly. *)
Definition eq_int (f : spec_float) (n : Z) : bool :=
  match f with
  | S754_nan | S754_infinity _ => false
  | S754_zero _ => n =? 0
  | S754_finite s m e =>
      if 0 <=? e then cond_Zopp s (Zpos m * 2 ^ e) =? n
      else cond_Zopp s (Zpos m) =? n * 2 ^ (- e)
  end.

(** The number a finite float stands for is [numerator / denominator]. *)
Definition numerator (f : spec_float) : Z :=
  match f with
  | S754_finite s m e => cond_Zopp s (Zpos m * 2 ^ Z.max e 0)
  | _ => 0
  end.

Definition denominator (f : spec_float) : Z :=
  match f with
  | S754_finite _ _ e => 2 ^ Z.max (- e) 0
  | _ => 1
  end.

(** A finite float is the whole number [n]. *)
Definition is_integer (f : spec_float) (n : Z) : Prop :=
  is_finite f = true /\ numerator f = n * denominator f.

Definition whole (f : spec_float) : Prop := exists n : Z, is_integer f n.

(** The float behind a bit pattern with [mw] mantissa bits and [ew]
    exponent bits (binary32: 23 and 8, binary64: 52 and 11), as the
    binary64 number of the same value. *)
Definition of_bits (mw ew : Z) (x : Z) : spec_float :=
  let s := Z.testbit x (mw + ew) in
  let ex := Z.land (Z.shiftr x mw) (Z.ones ew) in
  let mx := Z.land x (Z.ones mw) in
  let bias := 2 ^ (ew - 1) - 1 in
  if ex =? 0 then
    binary_normalize prec emax (cond_Zopp s mx) (1 - bias - mw) s
  else if ex =? Z.ones ew then
    (if mx =? 0 then S754_infinity s else S754_nan)
  else
    binary_normalize prec emax (cond_Zopp s (mx + 2 ^ mw)) (ex - bias - mw) s.

End PyFloat.

(** ** The [struct] module, as far as the decoder uses it *)

Module Struct.

(** The byte-order prefix of a format: ['>'] and ['<']. *)
Inductive endian : Type :=
  | BigEndian
  | LittleEndian.

(** The [n] low bytes of [x], least significant first. *)
Fixpoint le_bytes (n : nat) (x : Z) : list Z :=
  match n with
  | O => []
  | S n' => x mod 256 :: le_bytes n' (x / 256)
  end.

Fixpoint le_int (bs : list Z) : Z :=
  match bs with
  | [] => 0
  | b :: bs' => b + 256 * le_int bs'
  end.

Definition in_order (bo : endian) (bs : list Z) : list Z :=
  match bo with
  | LittleEndian => bs
  | BigEndian => rev bs
  end.

(** [struct.pack(bo + 'H' | 'I' | 'Q', x)]: [n] is the size of the format
    in bytes; a value out of the range of the format raises. *)
Definition pack (bo : endian) (n : nat) (x : Z) : py (list Z) :=
  if (0 <=? x) && (x <? 2 ^ (8 * Z.of_nat n))
  then Ret (in_order bo (le_bytes n x))
  else Raise StructError.

(** The unsigned integer held by a buffer of [n] bytes. *)
Definition unpack_bits (bo : endian) (n : nat) (bs : list Z) : py Z :=
  if Nat.eqb (length bs) n then Ret (le_int (in_order bo bs))
  else Raise StructError.

(** [struct.unpack(bo + 'h' | 'i' | 'q', bs)[0]]: two's complement. *)
Definition unpack_signed (bo : endian) (n : nat) (bs : list Z) : py Z :=
  let! u := unpack_bits bo n bs in
  Ret (if u <? 2 ^ (8 * Z.of_nat n - 1) then u else u - 2 ^ (8 * Z.of_nat n)).

(** [struct.unpack(bo + 'f', bs)[0]]. *)
Definition unpack_float32 (bo : endian) (bs : list Z) : py spec_float :=
  let! u := unpack_bits bo 4 bs in
  Ret (PyFloat.of_bits 23 8 u).

(** [struct.unpack(bo + 'd', bs)[0]]. *)
Definition unpack_float64 (bo : endian) (bs : list Z) : py spec_float :=
  let! u := unpack_bits bo 8 bs in
  Ret (PyFloat.of_bits 52 11 u).

End Struct.

(** ** [src/config_parser.py] *)

Module Config.

(** [class ModbusRegister]. *)
Record ModbusRegister : Type := {
  tag : string;
  address : Z;
  function_code : Z;
  count : Z;
  data_type : string;
  divider : spec_float;
  multiplier : spec_float
}.

(** [ModbusRegister.needs_scaling]. *)
Definition needs_scaling (self : ModbusRegister) : bool :=
  PyFloat.ne self.(multiplier) PyFloat.one || PyFloat.ne self.(divider) PyFloat.one.

(** [ModbusRegister.is_integer_type]. *)
Definition is_integer_type (self : ModbusRegister) : bool :=
  bool_decide (self.(data_type) ∈
    ["uint16"; "int16"; "uint32"; "int32"; "uint64"; "int64"]%string).

(** [ModbusRegister.apply_scaling]. The product of an int and a float
    converts the int first. *)
Definition apply_scaling (self : ModbusRegister) (value : pyval) : py pyval :=
  if negb (needs_scaling self) then Ret value
  else
    let! v := PyFloat.of_val value in
    let! result := PyFloat.truediv (PyFloat.mul v self.(multiplier)) self.(divider) in
    if is_integer_type self then
      let! n := PyFloat.to_int result in
      if PyFloat.eq_int result n then
        let! n' := PyFloat.to_int result in Ret (PInt n')
      else Ret (PFloat result)
    else Ret (PFloat result).

(** [class ModbusDevice]. *)
Record ModbusDevice : Type := {
  name : string;
  device_type : string;
  unit_id : Z;
  port : string;
  baudrate : Z;
  parity : string;
  stopbits : Z;
  bytesize : Z;
  timeout : spec_float;
  poll_period : Z;
  byte_order : string;
  word_order : string;
  registers : list ModbusRegister
}.

(** [ConfigParser.TYPE_MAPPING]. *)
Definition TYPE_MAPPING : list (string * (string * Z)) :=
  [ ("16uint", ("uint16", 1));
    ("16int", ("int16", 1));
    ("32uint", ("uint32", 2));
    ("32int", ("int32", 2));
    ("32float", ("float32", 2));
    ("float", ("float32", 2));
    ("double", ("float64", 4));
    ("64int", ("int64", 4));
    ("64uint", ("uint64", 4)) ]%string.

(** [d.get(k, dflt)] on a dictionary literal. *)
Fixpoint dict_get {V : Type} (d : list (string * V)) (k : string) (dflt : V) : V :=
  match d with
  | [] => dflt
  | (k', v) :: d' => if String.eqb k' k then v else dict_get d' k dflt
  end.

(** One register entry of a ThingsBoard connector file: a JSON object
    in which each key of the schema is absent or holds a value of its
    schema type (a string, an integer, a number). *)
Record reg_config : Type := {
  cfg_type : option string;
  cfg_tag : option string;
  cfg_address : option Z;
  cfg_functionCode : option Z;
  cfg_objectsCount : option Z;
  cfg_divider : option pyval;
  cfg_multiplier : option pyval
}.

(** [d[k]]: an absent key raises. *)
Definition item {V : Type} (o : option V) : py V :=
  match o with
  | Some v => Ret v
  | None => Raise KeyError
  end.

(** [ConfigParser._parse_register]. *)
Definition _parse_register (reg_config : reg_config) : option ModbusRegister :=
  try_or_None (
    let data_type := default "16uint"%string reg_config.(cfg_type) in
    let '(mapped_type, default_count) :=
      dict_get TYPE_MAPPING data_type ("uint16"%string, 1) in
    let! t := item reg_config.(cfg_tag) in
    let! a := item reg_config.(cfg_address) in
    let! fc := item reg_config.(cfg_functionCode) in
    let! d := PyFloat.of_val (default (PFloat PyFloat.one) reg_config.(cfg_divider)) in
    let! m := PyFloat.of_val (default (PFloat PyFloat.one) reg_config.(cfg_multiplier)) in
    Ret (Some {|
      tag := t;
      address := a;
      function_code := fc;
      count := default default_count reg_config.(cfg_objectsCount);
      data_type := mapped_type;
      divider := d;
      multiplier := m
    |})).

(** The width table of the specification, in 16-bit words: 16-bit types
    take 1 word, 32-bit types 2, 64-bit types 4. It is stated from the
    specification, for comparison with what [_parse_register] accepts. *)
Definition spec_word_count (data_type : string) : option Z :=
  if bool_decide (data_type ∈ ["uint16"; "int16"]%string) then Some 1
  else if bool_decide (data_type ∈ ["uint32"; "int32"; "float32"]%string) then Some 2
  else if bool_decide (data_type ∈ ["uint64"; "int64"; "float64"]%string) then Some 4
  else None.

(** [ModbusDevice.poll_interval]: [self.poll_period / 1000.0]. *)
Definition poll_interval (self : ModbusDevice) : py spec_float :=
  let! p := PyFloat.of_int self.(poll_period) in
  PyFloat.truediv p (PyFloat.nearest 1000).

(** The [parity_map] of [ConfigParser._parse_parity]. *)
Definition parity_map : list (string * string) :=
  [ ("N", "N"); ("E", "E"); ("O", "O");
    ("none", "N"); ("even", "E"); ("odd", "O") ]%string.

(** [ConfigParser._parse_parity]. *)
Definition _parse_parity (parity : string) : string :=
  dict_get parity_map parity "N"%string.

(** One entry of [config['master']['slaves']], with the same reading of a
    JSON object as for [reg_config]. *)
Record slave_config : Type := {
  sl_deviceName : option string;
  sl_deviceType : option string;
  sl_unitId : option Z;
  sl_port : option string;
  sl_baudrate : option Z;
  sl_parity : option string;
  sl_stopbits : option Z;
  sl_bytesize : option Z;
  sl_timeout : option pyval;
  sl_pollPeriod : option Z;
  sl_byteOrder : option string;
  sl_wordOrder : option string;
  sl_attributes : option (list reg_config);
  sl_timeseries : option (list reg_config)
}.

(** A connector file once read by [json.load]: [config['master']] and
    [config['master']['slaves']] may be missing. *)
Record master_config : Type := {
  ms_slaves : option (list slave_config)
}.

Record connector_config : Type := {
  cc_name : option string;
  cc_master : option master_config
}.

(** The registers of a slave: its [attributes], then its [timeseries],
    without the entries [_parse_register] gives up on. *)
Definition slave_registers (slave : slave_config) : list ModbusRegister :=
  omap _parse_register (default [] slave.(sl_attributes))
  ++ omap _parse_register (default [] slave.(sl_timeseries)).

(** The body of the loop of [parse_thingsboard_config] for one slave: no
    device for a slave without registers. The default of [deviceName] is
    an argument of [slave.get], so [slave['unitId']] is read for it even
    when the name is given. *)
Definition parse_slave (slave : slave_config) : py (option ModbusDevice) :=
  match slave_registers slave with
  | [] => Ret None
  | (_ :: _) as regs =>
      let! uid := item slave.(sl_unitId) in
      let device_name := default ("Device_" +:+ pretty uid)%string slave.(sl_deviceName) in
      let! uid' := item slave.(sl_unitId) in
      let! p := item slave.(sl_port) in
      let! t := PyFloat.of_val (default (PInt 35) slave.(sl_timeout)) in
      let! t' := PyFloat.truediv t (PyFloat.nearest 1000) in
      Ret (Some {|
        name := device_name;
        device_type := default "Unknown"%string slave.(sl_deviceType);
        unit_id := uid';
        port := p;
        baudrate := default 9600 slave.(sl_baudrate);
        parity := _parse_parity (default "N"%string slave.(sl_parity));
        stopbits := default 1 slave.(sl_stopbits);
        bytesize := default 8 slave.(sl_bytesize);
        timeout := t';
        poll_period := default 1000 slave.(sl_pollPeriod);
        byte_order := default "BIG"%string slave.(sl_byteOrder);
        word_order := default "BIG"%string slave.(sl_wordOrder);
        registers := regs
      |})
  end.

(** The loop of [parse_thingsboard_config] over the slaves. *)
Fixpoint parse_slaves (slaves : list slave_config) : py (list ModbusDevice) :=
  match slaves with
  | [] => Ret []
  | slave :: rest =>
      let! d := parse_slave slave in
      let! ds := parse_slaves rest in
      Ret (match d with
           | Some device => device :: ds
           | None => ds
           end)
  end.

(** [ConfigParser.parse_thingsboard_config], from the document
    [json.load] gives. *)
Definition parse_thingsboard_config (config : connector_config) : py (list ModbusDevice) :=
  let! master := item config.(cc_master) in
  let! slaves := item master.(ms_slaves) in
  parse_slaves slaves.

End Config.

(** ** What a polling thread does, as a trace *)

(** The locks of [ModbusPoller]: [client_create_lock] and [locks[key]]. *)
Inductive lock_id : Type :=
  | CreateLock
  | PortLock (key : string).

(** The three calls of [time.sleep]: [time.sleep(0.08)] in the sweep,
    [time.sleep(self.device.poll_interval)] and [time.sleep(5)] in the
    polling loop. *)
Inductive pause : Type :=
  | Pacing
  | Interval (poll_period : Z)
  | Cooldown.

Definition pause_ms (p : pause) : Z :=
  match p with
  | Pacing => 80
  | Interval poll_period => poll_period
  | Cooldown => 5000
  end.

(** A dictionary with string keys. Python keeps the keys in insertion
    order and [publish] walks them in that order, so the order is part of
    the value. *)
Definition dict (V : Type) : Type := list (string * V).

(** [d[k] = v]: a present key keeps its place. *)
Fixpoint dict_set {V : Type} (d : dict V) (k : string) (v : V) : dict V :=
  match d with
  | [] => [(k, v)]
  | (k', v') :: d' =>
      if String.eqb k' k then (k, v) :: d' else (k', v') :: dict_set d' k v
  end.

(** The JSON documents [MQTTPublisher.publish] sends. *)
Inductive payload : Type :=
  | StatusPayload (status timestamp : string)
  | TelemetryPayload (device device_type : string) (unit_id : Z)
      (timestamp : string) (data : dict pyval)
  | ValuePayload (value : pyval) (timestamp : string).

(** One call [self.client.publish(topic, payload, qos=..., retain=...)]. *)
Record message : Type := {
  msg_topic : string;
  msg_payload : payload;
  msg_qos : Z;
  msg_retain : bool
}.

(** What one call of [self.client.publish] gives: a result whose [rc] is
    [MQTT_ERR_SUCCESS] or not, or an exception (the paho client raises
    [ValueError] for a topic that holds [+] or [#], for one). *)
Inductive publish_outcome : Type :=
  | PublishRc (success : bool)
  | PublishRaises (e : exn).

(** What a polling thread does that can be seen from outside: a lock
    taken or given back, a call of [read_register], a call of
    [time.sleep], a message handed to the MQTT client. *)
Inductive event : Type :=
  | EvLock (l : lock_id)
  | EvUnlock (l : lock_id)
  | EvRead (device tag : string)
  | EvSleep (p : pause)
  | EvPublish (m : message).

(** ** [src/modbus_poller.py] *)

Module Poller.
Import Config.

(** A [ModbusSerialClient], by the arguments it was made with. *)
Record ModbusSerialClient : Type := {
  c_port : string;
  c_baudrate : Z;
  c_parity : string;
  c_stopbits : Z;
  c_bytesize : Z;
  c_timeout : spec_float
}.

(** [client.connect()] returns [True] or [False], or fails. *)
Inductive connect_result : Type :=
  | ConnectOk
  | ConnectRefused
  | ConnectFault.

(** The arguments of one read; [rq_function] tells [read_coils] (1),
    [read_discrete_inputs] (2), [read_holding_registers] (3) and
    [read_input_registers] (4) apart. *)
Record request : Type := {
  rq_function : Z;
  rq_address : Z;
  rq_count : Z;
  rq_slave : Z
}.

(** What a read gives: a response for which [isError()] holds, a
    response with its [bits] and [registers], or an exception. *)
Inductive response : Type :=
  | RespError
  | RespOk (bits : list bool) (registers : list Z)
  | RespRaise (e : exn).

(** The serial side during one poll cycle: whether a port opens, and
    the answer to the [i]-th read of the sweep. *)
Record bus : Type := {
  connect : ModbusSerialClient -> connect_result;
  transact : nat -> ModbusSerialClient -> request -> response
}.

(** [class ModbusPoller]: [self.clients] and the keys of [self.locks]. *)
Record ModbusPoller : Type := {
  clients : gmap string ModbusSerialClient;
  locks : gset string
}.

(** [f"{device.port}_{device.baudrate}_{device.parity}"]. *)
Definition key_of (device : ModbusDevice) : string :=
  (device.(port) +:+ "_" +:+ pretty device.(baudrate) +:+ "_" +:+ device.(parity))%string.

(** [ModbusPoller.get_client]. The creation lock is taken and given back
    on every path, also when the connection fails. *)
Definition get_client (self : ModbusPoller) (device : ModbusDevice) (env : bus)
  : py (option ModbusSerialClient) * ModbusPoller * list event :=
  let key := key_of device in
  let guarded (r : py (option ModbusSerialClient)) (self' : ModbusPoller) :=
    (r, self', [EvLock CreateLock; EvUnlock CreateLock]) in
  match self.(clients) !! key with
  | Some client => guarded (Ret (Some client)) self
  | None =>
      let client := {|
        c_port := device.(port);
        c_baudrate := device.(baudrate);
        c_parity := device.(parity);
        c_stopbits := device.(stopbits);
        c_bytesize := device.(bytesize);
        c_timeout := device.(timeout)
      |} in
      match env.(connect) client with
      | ConnectFault => guarded (Raise IOFault) self
      | ConnectRefused => guarded (Ret None) self
      | ConnectOk =>
          guarded (Ret (Some client))
            {| clients := <[key := client]> self.(clients);
               locks := {[key]} ∪ self.(locks) |}
      end
  end.

(** [l[i]] for [i >= 0]. *)
Definition index {A : Type} (l : list A) (i : nat) : py A :=
  match l !! i with
  | Some a => Ret a
  | None => Raise IndexError
  end.

Definition endian_of (byte_order : string) : Struct.endian :=
  if String.eqb byte_order "BIG" then Struct.BigEndian else Struct.LittleEndian.

(** [ModbusPoller._decode_registers]. *)
Definition _decode_registers (registers : list Z) (register : ModbusRegister)
    (device : ModbusDevice) : option pyval :=
  try_or_None (
    if Z.of_nat (length registers) <? register.(count) then Ret None
    else
      let byte_order := endian_of device.(byte_order) in
      let word_order := device.(word_order) in
      let! value :=
        if register.(count) =? 1 then
          let! r0 := index registers 0 in
          if String.eqb register.(data_type) "uint16" then Ret (Some (PInt r0))
          else if String.eqb register.(data_type) "int16" then
            let! bs := Struct.pack byte_order 2 r0 in
            let! v := Struct.unpack_signed byte_order 2 bs in
            Ret (Some (PInt v))
          else Ret (Some (PInt r0))
        else if register.(count) =? 2 then
          let! r0 := index registers 0 in
          let! r1 := index registers 1 in
          let raw :=
            if String.eqb word_order "BIG" then Z.lor (Z.shiftl r0 16) r1
            else Z.lor (Z.shiftl r1 16) r0 in
          if String.eqb register.(data_type) "uint32" then Ret (Some (PInt raw))
          else if String.eqb register.(data_type) "int32" then
            let! bs := Struct.pack byte_order 4 raw in
            let! v := Struct.unpack_signed byte_order 4 bs in
            Ret (Some (PInt v))
          else if String.eqb register.(data_type) "float32" then
            let! bytes_data := Struct.pack byte_order 4 raw in
            let! v := Struct.unpack_float32 byte_order bytes_data in
            Ret (Some (PFloat v))
          else Ret (Some (PInt raw))
        else if register.(count) =? 4 then
          let! r0 := index registers 0 in
          let! r1 := index registers 1 in
          let! r2 := index registers 2 in
          let! r3 := index registers 3 in
          let raw :=
            if String.eqb word_order "BIG" then
              Z.lor (Z.lor (Z.lor (Z.shiftl r0 48) (Z.shiftl r1 32)) (Z.shiftl r2 16)) r3
            else
              Z.lor (Z.lor (Z.lor (Z.shiftl r3 48) (Z.shiftl r2 32)) (Z.shiftl r1 16)) r0 in
          if String.eqb register.(data_type) "uint64" then Ret (Some (PInt raw))
          else if String.eqb register.(data_type) "int64" then
            let! bs := Struct.pack byte_order 8 raw in
            let! v := Struct.unpack_signed byte_order 8 bs in
            Ret (Some (PInt v))
          else if String.eqb register.(data_type) "float64" then
            let! bytes_data := Struct.pack byte_order 8 raw in
            let! v := Struct.unpack_float64 byte_order bytes_data in
            Ret (Some (PFloat v))
          else Ret (Some (PInt raw))
        else Ret None in
      match value with
      | None => Ret None
      | Some value =>
          let! scaled := apply_scaling register value in
          Ret (Some scaled)
      end).

(** [float(b)] for a bool. *)
Definition float_of_bool (b : bool) : spec_float :=
  if b then PyFloat.one else S754_zero false.

(** The arguments [read_register] passes to the client:
    [(register.address, register.count, slave=device.unit_id)]. *)
Definition request_of (device : ModbusDevice) (register : ModbusRegister) : request :=
  {| rq_function := register.(function_code);
     rq_address := register.(address);
     rq_count := register.(count);
     rq_slave := device.(unit_id) |}.

(** [ModbusPoller.read_register], as the [i]-th read of a sweep. *)
Definition read_register (env : bus) (i : nat) (client : ModbusSerialClient)
    (device : ModbusDevice) (register : ModbusRegister) : option pyval :=
  try_or_None (
    let fc := register.(function_code) in
    if (fc =? 1) || (fc =? 2) || (fc =? 3) || (fc =? 4) then
      match env.(transact) i client (request_of device register) with
      | RespRaise e => Raise e
      | RespError => Ret None
      | RespOk bits registers =>
          if (fc =? 1) || (fc =? 2) then
            let! b := index bits 0 in
            Ret (Some (PFloat (float_of_bool b)))
          else Ret (_decode_registers registers register device)
      end
    else Ret None).

(** The dictionary [poll_device] returns. *)
Record Reading : Type := {
  rd_device : string;
  rd_device_type : string;
  rd_unit_id : Z;
  rd_status : string;
  rd_data : dict pyval
}.

(** The loop of [poll_device] over [device.registers], from the [i]-th
    read on, with the [data] and [success_count] reached so far. *)
Fixpoint sweep (env : bus) (client : ModbusSerialClient) (device : ModbusDevice)
    (i : nat) (regs : list ModbusRegister) (data : dict pyval) (success_count : Z)
  : dict pyval * Z * list event :=
  match regs with
  | [] => (data, success_count, [])
  | register :: rest =>
      let value := read_register env i client device register in
      let '(data', success_count') :=
        match value with
        | Some v => (dict_set data register.(tag) v, success_count + 1)
        | None => (data, success_count)
        end in
      let '(data'', success_count'', tr) :=
        sweep env client device (S i) rest data' success_count' in
      (data'', success_count'',
       EvRead device.(name) register.(tag) :: EvSleep Pacing :: tr)
  end.

(** [ModbusPoller.poll_device]. *)
Definition poll_device (self : ModbusPoller) (device : ModbusDevice) (env : bus)
  : py Reading * ModbusPoller * list event :=
  let '(r, self', tr) := get_client self device env in
  match r with
  | Raise e => (Raise e, self', tr)
  | Ret None =>
      (Ret {|
         rd_device := device.(name);
         rd_device_type := device.(device_type);
         rd_unit_id := device.(unit_id);
         rd_status := "disconnected";
         rd_data := []
       |}, self', tr)
  | Ret (Some client) =>
      let key := key_of device in
      if bool_decide (key ∈ self'.(locks)) then
        let '(data, success_count, tr_sweep) :=
          sweep env client device 0 device.(registers) [] 0 in
        (Ret {|
           rd_device := device.(name);
           rd_device_type := device.(device_type);
           rd_unit_id := device.(unit_id);
           rd_status := if 0 <? success_count then "connected" else "error";
           rd_data := data
         |}, self',
         tr ++ [EvLock (PortLock key)] ++ tr_sweep ++ [EvUnlock (PortLock key)])
      else (Raise KeyError, self', tr)
  end.

(** [ModbusPoller.close_all]: the set of the keys whose client is closed
    (the order in which they are closed is not kept), and the poller left;
    [self.locks] is not touched. *)
Definition close_all (self : ModbusPoller) : gset string * ModbusPoller :=
  (dom self.(clients),
   {| clients := ∅; locks := self.(locks) |}).

End Poller.

(** ** [src/mqtt_publisher.py] *)

Module Publisher.
Import Poller.

(** [s.replace(' ', '_')]. *)
Fixpoint replace_spaces (s : string) : string :=
  match s with
  | EmptyString => EmptyString
  | String c s' =>
      String (if Ascii.eqb c " "%char then "_"%char else c) (replace_spaces s')
  end.

(** The per-tag messages of step 3, in the order of [data.items()]. *)
Definition tag_messages (base_topic device_name timestamp : string)
    (data : dict pyval) : list message :=
  map (fun '(tag, value) =>
    {| msg_topic := (base_topic +:+ "/" +:+ device_name +:+ "/" +:+ tag)%string;
       msg_payload := ValuePayload value timestamp;
       msg_qos := 0;
       msg_retain := true |}) data.

(** The loop of step 3 over the per-tag messages: the messages the client
    took, and the exception that ended the loop if one did. *)
Fixpoint send_tags (client : message -> publish_outcome) (msgs : list message)
  : option exn * list message :=
  match msgs with
  | [] => (None, [])
  | m :: rest =>
      match client m with
      | PublishRaises e => (Some e, [])
      | PublishRc _ =>
          let '(r, sent) := send_tags client rest in
          (r, m :: sent)
      end
  end.

(** [MQTTPublisher.publish]: the value returned, or the exception raised,
    and the messages [self.client.publish] took, in order. [connected] is
    [self.connected], [client] is what [self.client.publish] answers for a
    message, [timestamp] is the time read once per call. The result code
    is looked at for the telemetry message only. *)
Definition publish (connected : bool) (client : message -> publish_outcome)
    (timestamp : string) (device_data : Reading) (base_topic : string)
  : py bool * list message :=
  if negb connected then (Ret false, [])
  else
    let device_name := replace_spaces device_data.(rd_device) in
    let data := device_data.(rd_data) in
    let status := device_data.(rd_status) in
    let status_message := {|
      msg_topic := (base_topic +:+ "/" +:+ device_name +:+ "/status")%string;
      msg_payload := StatusPayload status timestamp;
      msg_qos := 1;
      msg_retain := true
    |} in
    match client status_message with
    | PublishRaises e => (Raise e, [])
    | PublishRc _ =>
        match data with
        | [] => (Ret false, [status_message])
        | _ :: _ =>
            let telemetry_message := {|
              msg_topic := (base_topic +:+ "/" +:+ device_name +:+ "/telemetry")%string;
              msg_payload :=
                TelemetryPayload device_data.(rd_device) device_data.(rd_device_type)
                  device_data.(rd_unit_id) timestamp data;
              msg_qos := 1;
              msg_retain := true
            |} in
            match client telemetry_message with
            | PublishRaises e => (Raise e, [status_message])
            | PublishRc false => (Ret false, [status_message; telemetry_message])
            | PublishRc true =>
                let '(r, sent) :=
                  send_tags client (tag_messages base_topic device_name timestamp data) in
                (match r with
                 | Some e => Raise e
                 | None => Ret true
                 end,
                 status_message :: telemetry_message :: sent)
            end
        end
    end.

End Publisher.

(** ** The polling loop of [src/main.py] *)

Module Bridge.
Import Config Poller Publisher.

(** What surrounds one iteration of the loop: the serial side, the state
    of the MQTT session, the MQTT client, the clock, and the lengths
    [time.sleep] refuses as too long (it raises [OverflowError] above a
    limit of the platform; a negative length it always refuses). *)
Record cycle_env : Type := {
  serial : bus;
  mqtt_connected : bool;
  mqtt_client : message -> publish_outcome;
  now : string;
  sleep_too_long : spec_float -> bool
}.

(** [time.sleep(self.device.poll_interval)]: when [poll_interval] raises
    (a period too large for a float), or [time.sleep] raises (a negative
    length, or one that is too long), the loop handles the exception as
    any other fault and sleeps the cooldown. *)
Definition sleep_interval (env : cycle_env) (device : ModbusDevice) : list event :=
  match poll_interval device with
  | Raise _ => [EvSleep Cooldown]
  | Ret seconds =>
      if SFltb seconds (S754_zero false) || env.(sleep_too_long) seconds
      then [EvSleep Cooldown]
      else [EvSleep (Interval device.(poll_period))]
  end.

(** One iteration of the [while self.running] loop of
    [DevicePoller.run]: an exception of [poll_device] or of [publish]
    goes to the [except] clause, which sleeps the cooldown. *)
Definition run_cycle (poller : ModbusPoller) (device : ModbusDevice)
    (base_topic : string) (env : cycle_env) : ModbusPoller * list event :=
  let '(r, poller', tr) := poll_device poller device env.(serial) in
  match r with
  | Raise _ => (poller', tr ++ [EvSleep Cooldown])
  | Ret device_data =>
      match device_data.(rd_data) with
      | [] => (poller', tr ++ sleep_interval env device)
      | _ :: _ =>
          let '(published, sent) :=
            publish env.(mqtt_connected) env.(mqtt_client) env.(now)
              device_data base_topic in
          match published with
          | Raise _ => (poller', tr ++ map EvPublish sent ++ [EvSleep Cooldown])
          | Ret _ => (poller', tr ++ map EvPublish sent ++ sleep_interval env device)
          end
      end
  end.

(** The [while self.running] loop: one iteration for each element of
    [envs], after which the thread is stopped. *)
Fixpoint run_loop (poller : ModbusPoller) (device : ModbusDevice)
    (base_topic : string) (envs : list cycle_env) : ModbusPoller * list event :=
  match envs with
  | [] => (poller, [])
  | env :: envs' =>
      let '(poller', tr) := run_cycle poller device base_topic env in
      let '(poller'', tr') := run_loop poller' device base_topic envs' in
      (poller'', tr ++ tr')
  end.

(** [DevicePoller.run]: the log line before the loop reads
    [self.device.poll_interval]; when that raises, the thread ends there,
    before its first cycle. *)
Definition run (poller : ModbusPoller) (device : ModbusDevice)
    (base_topic : string) (envs : list cycle_env) : ModbusPoller * list event :=
  match poll_interval device with
  | Raise _ => (poller, [])
  | Ret _ => run_loop poller device base_topic envs
  end.

(** What [ModbusMQTTBridge.start_polling] does: a thread started for a
    device, and [time.sleep(0.2)]. *)
Inductive startup_event : Type :=
  | ThreadStarted (device_name : string)
  | StartupDelay.

(** The loop of [start_polling], from the [i]-th of [n] devices on. *)
Fixpoint start_polling_from (i : nat) (n : nat) (devices : list ModbusDevice)
  : list startup_event :=
  match devices with
  | [] => []
  | device :: rest =>
      ThreadStarted device.(name)
        :: (if Z.of_nat i <? Z.of_nat n - 1 then [StartupDelay] else [])
        ++ start_polling_from (S i) n rest
  end.

(** [ModbusMQTTBridge.start_polling]. *)
Definition start_polling (devices : list ModbusDevice) : list startup_event :=
  start_polling_from 0 (length devices) devices.

End Bridge.

(** ** Observations on traces *)

#[global] Instance lock_id_eq_dec : EqDecision lock_id.
Proof. solve_decision. Defined.

Module Trace.

(** The locks a thread holds after [tr], when it held [held] before. *)
Fixpoint held_after (held : list lock_id) (tr : list event) : list lock_id :=
  match tr with
  | [] => held
  | EvLock l :: tr' => held_after (l :: held) tr'
  | EvUnlock l :: tr' => held_after (List.remove lock_id_eq_dec l held) tr'
  | _ :: tr' => held_after held tr'
  end.

(** The sleeps of [tr], each with the locks held while it lasts. *)
Fixpoint sleeps (held : list lock_id) (tr : list event) : list (pause * list lock_id) :=
  match tr with
  | [] => []
  | EvLock l :: tr' => sleeps (l :: held) tr'
  | EvUnlock l :: tr' => sleeps (List.remove lock_id_eq_dec l held) tr'
  | EvSleep p :: tr' => (p, held) :: sleeps held tr'
  | _ :: tr' => sleeps held tr'
  end.

Definition is_port_lock (l : lock_id) : bool :=
  match l with
  | PortLock _ => true
  | CreateLock => false
  end.

(** No sleep of [tr] happens under the lock of a port. *)
Definition sleeps_unlocked (tr : list event) : Prop :=
  forall p held, In (p, held) (sleeps [] tr) -> existsb is_port_lock held = false.

(** The number of pacing delays in [tr]. *)
Fixpoint pacing_count (tr : list event) : nat :=
  match tr with
  | [] => O
  | EvSleep Pacing :: tr' => S (pacing_count tr')
  | _ :: tr' => pacing_count tr'
  end.

(** The status messages published in [tr]. *)
Fixpoint status_messages (tr : list event) : list message :=
  match tr with
  | [] => []
  | EvPublish m :: tr' =>
      match m.(msg_payload) with
      | StatusPayload _ _ => m :: status_messages tr'
      | _ => status_messages tr'
      end
  | _ :: tr' => status_messages tr'
  end.

(** Each register read of [tr] is followed at once by a pacing delay. *)
Fixpoint paced (tr : list event) : Prop :=
  match tr with
  | [] => True
  | EvRead _ _ :: tr' =>
      match tr' with
      | EvSleep Pacing :: _ => paced tr'
      | _ => False
      end
  | _ :: tr' => paced tr'
  end.

End Trace.

(** Every cached client has its lock: the invariant of [ModbusPoller]. *)
Definition consistent (self : Poller.ModbusPoller) : Prop :=
  forall key : string, is_Some (self.(Poller.clients) !! key) -> key ∈ self.(Poller.locks).

(** A [ModbusPoller] as [__init__] leaves it. *)
Definition fresh_poller : Poller.ModbusPoller :=
  {| Poller.clients := ∅; Poller.locks := ∅ |}.

(** ** Sample configurations *)

Definition a_device (byte_order word_order : string) (registers : list Config.ModbusRegister)
  : Config.ModbusDevice :=
  {| Config.name := "pump 1"; Config.device_type := "pump"; Config.unit_id := 1;
     Config.port := "/dev/ttyUSB0"; Config.baudrate := 9600; Config.parity := "N";
     Config.stopbits := 1; Config.bytesize := 8; Config.timeout := S754_zero false;
     Config.poll_period := 1000; Config.byte_order := byte_order; Config.word_order := word_order;
     Config.registers := registers |}.

Definition a_register (tag : string) (function_code count : Z) (data_type : string)
    (multiplier divider : Z) : Config.ModbusRegister :=
  {| Config.tag := tag; Config.address := 0; Config.function_code := function_code; Config.count := count;
     Config.data_type := data_type; Config.divider := PyFloat.nearest divider;
     Config.multiplier := PyFloat.nearest multiplier |}.

(** A serial side on which every port answers [c] to [connect] and every
    read is answered by [answer]. *)
Definition a_bus (c : Poller.connect_result) (answer : Poller.request -> Poller.response)
  : Poller.bus :=
  {| Poller.connect := fun _ => c; Poller.transact := fun _ _ rq => answer rq |}.

(** A unit whose coils read 1 and whose registers read 250. *)
Definition plant (rq : Poller.request) : Poller.response :=
  if (rq.(Poller.rq_function) =? 1) || (rq.(Poller.rq_function) =? 2)
  then Poller.RespOk [true] []
  else Poller.RespOk [] [250].

(** A unit that answers no read. *)
Definition silent (rq : Poller.request) : Poller.response := Poller.RespError.

(** The device of the end-to-end scenario: a holding register [temp] with
    divider 10 and a coil [run]. *)
Definition two_register_device : Config.ModbusDevice :=
  a_device "BIG" "BIG" [a_register "temp" 3 1 "uint16" 1 10; a_register "run" 1 1 "uint16" 1 1].

(** Whether a topic holds one of the wildcards [+] and [#]. *)
Fixpoint holds_wildcard (topic : string) : bool :=
  match topic with
  | EmptyString => false
  | String c topic' =>
      Ascii.eqb c "+"%char || Ascii.eqb c "#"%char || holds_wildcard topic'
  end.

(** An MQTT client that raises for a topic with a wildcard, as the paho
    client does, and takes every other message. *)
Definition wildcard_checking_client (m : message) : publish_outcome :=
  if holds_wildcard m.(msg_topic) then PublishRaises ValueError else PublishRc true.

(** A platform on which [time.sleep] refuses more than 9223372036
    seconds. *)
Definition sleep_limit (seconds : spec_float) : bool :=
  SFltb (PyFloat.nearest 9223372036) seconds.

Definition a_cycle (b : Poller.bus) (mqtt_connected : bool) : Bridge.cycle_env :=
  {| Bridge.serial := b;
     Bridge.mqtt_connected := mqtt_connected;
     Bridge.mqtt_client := wildcard_checking_client;
     Bridge.now := "2024-05-01T10:00:00Z";
     Bridge.sleep_too_long := sleep_limit |}.

(** At least one register of [regs] gives a value when the sweep reads
    it. *)
Definition some_decoded (env : Poller.bus) (client : Poller.ModbusSerialClient)
    (device : Config.ModbusDevice) (regs : list Config.ModbusRegister) : Prop :=
  exists (j : nat) (register : Config.ModbusRegister) (v : pyval),
    regs !! j = Some register
    /\ Poller.read_register env j client device register = Some v.

(** What [get_client] returns or raises and what [poll_device] returns or
    raises, without the state and the trace. *)
Definition acquired (self : Poller.ModbusPoller) (device : Config.ModbusDevice)
    (env : Poller.bus) : py (option Poller.ModbusSerialClient) :=
  fst (fst (Poller.get_client self device env)).

Definition polled (self : Poller.ModbusPoller) (device : Config.ModbusDevice)
    (env : Poller.bus) : py Poller.Reading :=
  fst (fst (Poller.poll_device self device env)).

(** The events of the sweep of [poll_device] over [regs]. *)
Definition sweep_events (device : Config.ModbusDevice) (regs : list Config.ModbusRegister)
  : list event :=
  flat_map (fun register =>
    [EvRead device.(Config.name) register.(Config.tag); EvSleep Pacing]) regs.

(** The raw value of two 16-bit words as the specification words it: under
    Big word order the first word received is the most significant one,
    under any other word order the positions are swapped. *)
Definition spec_assemble2 (word_order : string) (w0 w1 : Z) : Z :=
  if String.eqb word_order "BIG" then w0 * 2 ^ 16 + w1 else w1 * 2 ^ 16 + w0.

(** The sleeps of [tr] are as the polling thread of [device] makes them:
    a pacing delay under the lock of the port of the device and under no
    other lock, the sleep between two cycles and the cooldown under no
    lock. *)
Definition sleeps_as_designed (device : Config.ModbusDevice) (tr : list event) : Prop :=
  forall (p : pause) (held : list lock_id),
    In (p, held) (Trace.sleeps [] tr) ->
    match p with
    | Pacing => held = [PortLock (Poller.key_of device)]
    | _ => held = []
    end.

(** ** Reference definitions for the further properties *)

(** The integer a pattern of [bits] bits stands for in two's complement. *)
Definition twos_complement (bits : Z) (u : Z) : Z :=
  if u <? 2 ^ (bits - 1) then u else u - 2 ^ bits.

(** The value a 32-bit pattern stands for in a value type, as the
    specification words it: an unsigned type is the pattern itself, a
    signed type is its two's complement reading, [float32] is the IEEE
    binary32 number with these bits; any other type of a 2-word register
    is left as the pattern. *)
Definition value_of_raw2 (data_type : string) (raw : Z) : pyval :=
  if String.eqb data_type "uint32" then PInt raw
  else if String.eqb data_type "int32" then PInt (twos_complement 32 raw)
  else if String.eqb data_type "float32" then PFloat (PyFloat.of_bits 23 8 raw)
  else PInt raw.

(** Four 16-bit words as one number, the first word most significant. *)
Definition words4 (w0 w1 w2 w3 : Z) : Z :=
  w0 * 2 ^ 48 + w1 * 2 ^ 32 + w2 * 2 ^ 16 + w3.

(** The reads of a sweep that give a value, in the order of the
    registers, each with the tag of its register; [i] is the rank of the
    first read. *)
Fixpoint successful_reads (env : Poller.bus) (client : Poller.ModbusSerialClient)
    (device : Config.ModbusDevice) (i : nat) (regs : list Config.ModbusRegister)
  : list (string * pyval) :=
  match regs with
  | [] => []
  | register :: rest =>
      match Poller.read_register env i client device register with
      | Some v => [(register.(Config.tag), v)]
      | None => []
      end ++ successful_reads env client device (S i) rest
  end.

(** The sleeps that end a cycle of the polling loop. *)
Fixpoint cycle_ends (tr : list event) : nat :=
  match tr with
  | [] => O
  | EvSleep (Interval _) :: tr' => S (cycle_ends tr')
  | EvSleep Cooldown :: tr' => S (cycle_ends tr')
  | _ :: tr' => cycle_ends tr'
  end.

(** The timestamp a payload carries. *)
Definition payload_timestamp (p : payload) : string :=
  match p with
  | StatusPayload _ ts => ts
  | TelemetryPayload _ _ _ ts _ => ts
  | ValuePayload _ ts => ts
  end.

(** The number of start-up delays among the events of [start_polling]. *)
Fixpoint startup_delays (evs : list Bridge.startup_event) : nat :=
  match evs with
  | [] => O
  | Bridge.StartupDelay :: evs' => S (startup_delays evs')
  | Bridge.ThreadStarted _ :: evs' => startup_delays evs'
  end.

(** The devices for which [start_polling] starts a thread, in order. *)
Fixpoint started_threads (evs : list Bridge.startup_event) : list string :=
  match evs with
  | [] => []
  | Bridge.ThreadStarted n :: evs' => n :: started_threads evs'
  | Bridge.StartupDelay :: evs' => started_threads evs'
  end.

(** A slave entry with nothing but a port, a unit and registers. *)
Definition a_slave (port : option string) (unit_id : option Z)
    (attributes timeseries : list Config.reg_config) : Config.slave_config :=
  {| Config.sl_deviceName := None; Config.sl_deviceType := None;
     Config.sl_unitId := unit_id; Config.sl_port := port;
     Config.sl_baudrate := None; Config.sl_parity := Some "even"%string;
     Config.sl_stopbits := None; Config.sl_bytesize := None;
     Config.sl_timeout := None; Config.sl_pollPeriod := None;
     Config.sl_byteOrder := None; Config.sl_wordOrder := None;
     Config.sl_attributes := Some attributes;
     Config.sl_timeseries := Some timeseries |}.

(** A register entry with a tag, a type tag and a function code. *)
Definition a_reg_config (tag : option string) (type : string) (function_code : Z)
  : Config.reg_config :=
  {| Config.cfg_type := Some type; Config.cfg_tag := tag;
     Config.cfg_address := Some 0; Config.cfg_functionCode := Some function_code;
     Config.cfg_objectsCount := None; Config.cfg_divider := None;
     Config.cfg_multiplier := None |}.

(** The client [get_client] makes for a device when none is cached. *)
Definition client_for (device : Config.ModbusDevice) : Poller.ModbusSerialClient :=
  {| Poller.c_port := device.(Config.port);
     Poller.c_baudrate := device.(Config.baudrate);
     Poller.c_parity := device.(Config.parity);
     Poller.c_stopbits := device.(Config.stopbits);
     Poller.c_bytesize := device.(Config.bytesize);
     Poller.c_timeout := device.(Config.timeout) |}.

(** The poller [get_client] leaves. *)
Definition after_get_client (self : Poller.ModbusPoller) (device : Config.ModbusDevice)
    (env : Poller.bus) : Poller.ModbusPoller :=
  snd (fst (Poller.get_client self device env)).

(** A register list that is not empty. *)
Definition has_registers (regs : list Config.ModbusRegister) : bool :=
  match regs with
  | [] => false
  | _ :: _ => true
  end.

(** The eight value types of [TYPE_MAPPING]. *)
Definition known_types : list string :=
  ["uint16"; "int16"; "uint32"; "int32"; "float32"; "float64"; "int64"; "uint64"]%string.

(** Whether a string holds a space. *)
Fixpoint has_space (s : string) : bool :=
  match s with
  | EmptyString => false
  | String c s' => Ascii.eqb c " "%char || has_space s'
  end.

(** * Properties *)

(** ** Packing and unpacking *)

Section StructFacts.
Import Struct.

Lemma length_le_bytes (n : nat) (x : Z) : length (le_bytes n x) = n.
Proof.
  revert x. induction n as [|n IH]; intros x; simpl; [reflexivity|].
  now rewrite IH.
Qed.

Lemma le_int_le_bytes (n : nat) (x : Z) :
  le_int (le_bytes n x) = x mod 256 ^ Z.of_nat n.
Proof.
  revert x. induction n as [|n IH]; intros x.
  - simpl. now rewrite Z.mod_1_r.
  - cbn [le_bytes le_int]. rewrite IH, Nat2Z.inj_succ, Z.pow_succ_r by lia.
    rewrite Z.rem_mul_r by lia. reflexivity.
Qed.

Lemma in_order_twice (bo : endian) (bs : list Z) :
  in_order bo (in_order bo bs) = bs.
Proof. destruct bo; simpl; [apply rev_involutive | reflexivity]. Qed.

Lemma length_in_order (bo : endian) (bs : list Z) :
  length (in_order bo bs) = length bs.
Proof. destruct bo; simpl; [apply length_rev | reflexivity]. Qed.

(** What was packed is read back, whatever the byte order, as long as
    the same order is used both ways. *)
Lemma unpack_bits_pack (bo : endian) (n : nat) (x : Z) (bs : list Z) :
  pack bo n x = Ret bs -> unpack_bits bo n bs = Ret x.
Proof.
  unfold pack, unpack_bits.
  destruct ((0 <=? x) && (x <? 2 ^ (8 * Z.of_nat n))) eqn:Hrange; [|discriminate].
  intros [= <-]. apply andb_prop in Hrange as [Hlo Hhi].
  apply Z.leb_le in Hlo. apply Z.ltb_lt in Hhi.
  rewrite length_in_order, length_le_bytes, Nat.eqb_refl.
  rewrite in_order_twice, le_int_le_bytes. f_equal.
  apply Z.mod_small. split; [exact Hlo|].
  replace (256 ^ Z.of_nat n) with (2 ^ (8 * Z.of_nat n)); [exact Hhi|].
  now rewrite Z.pow_mul_r by lia.
Qed.

(** Whether a value packs does not depend on the byte order. *)
Lemma pack_raises (bo bo' : endian) (n : nat) (x : Z) (e : exn) :
  pack bo n x = Raise e -> pack bo' n x = Raise e.
Proof.
  unfold pack. destruct ((0 <=? x) && (x <? 2 ^ (8 * Z.of_nat n))); [discriminate|].
  trivial.
Qed.

(** [pack] under [bo] and under [bo'] succeed or fail together, and the
    bits read back by [unpack] are those that were packed. *)
Ltac roundtrip bo bo' n x unpack :=
  let Hp := fresh "Hp" in
  let Hp' := fresh "Hp'" in
  destruct (pack bo n x) eqn:Hp;
  [ destruct (pack bo' n x) eqn:Hp';
    [ simpl; unfold unpack;
      now rewrite (unpack_bits_pack _ _ _ _ Hp), (unpack_bits_pack _ _ _ _ Hp')
    | apply (pack_raises _ bo) in Hp'; congruence ]
  | now rewrite (pack_raises _ bo' _ _ _ Hp) ].

(** Packing and reading back with one byte order gives what the other
    byte order gives: the three uses the decoder makes of it. *)
Lemma signed_roundtrip {B : Type} (bo bo' : endian) (n : nat) (x : Z) (k : Z -> py B) :
  (let! bs := pack bo n x in let! v := unpack_signed bo n bs in k v)
  = (let! bs := pack bo' n x in let! v := unpack_signed bo' n bs in k v).
Proof. roundtrip bo bo' n x unpack_signed. Qed.

Lemma float32_roundtrip {B : Type} (bo bo' : endian) (x : Z) (k : spec_float -> py B) :
  (let! bs := pack bo 4 x in let! v := unpack_float32 bo bs in k v)
  = (let! bs := pack bo' 4 x in let! v := unpack_float32 bo' bs in k v).
Proof. roundtrip bo bo' 4%nat x unpack_float32. Qed.

Lemma float64_roundtrip {B : Type} (bo bo' : endian) (x : Z) (k : spec_float -> py B) :
  (let! bs := pack bo 8 x in let! v := unpack_float64 bo bs in k v)
  = (let! bs := pack bo' 8 x in let! v := unpack_float64 bo' bs in k v).
Proof. roundtrip bo bo' 8%nat x unpack_float64. Qed.

End StructFacts.


(** ** Register decoding *)

Section Decoding.
Import Config Poller.

(** C5. Fewer raw words than [register.count]: the decoder returns no
    value, whatever the register, the device and the words are; the check
    comes first, so nothing is assembled. *)
Theorem incomplete_data_guard (registers : list Z) (register : ModbusRegister)
    (device : ModbusDevice) :
  Z.of_nat (length registers) < register.(count) ->
  _decode_registers registers register device = None.
Proof.
  intros Hshort. unfold _decode_registers.
  apply Z.ltb_lt in Hshort. now rewrite Hshort.
Qed.

Lemma incomplete_data_guard_witness :
  _decode_registers [1] (a_register "flow" 3 2 "uint32" 1 1) (a_device "BIG" "BIG" []) = None.
Proof. apply incomplete_data_guard. simpl. lia. Defined.

(** C10. The decoded value does not depend on the byte order of the
    device: two devices with the same word order decode every word
    sequence of every register to the same result. *)
Theorem byte_order_irrelevant (registers : list Z) (register : ModbusRegister)
    (device device' : ModbusDevice) :
  device.(word_order) = device'.(word_order) ->
  _decode_registers registers register device
  = _decode_registers registers register device'.
Proof.
  intros Hwo. unfold _decode_registers. rewrite <- Hwo.
  generalize (endian_of device.(byte_order)) (endian_of device'.(byte_order)).
  intros bo bo'.
  destruct (Z.of_nat (length registers) <? register.(count)); [reflexivity|].
  f_equal. f_equal.
  destruct (register.(count) =? 1).
  { destruct (index registers 0) as [r0|]; [simpl|reflexivity].
    destruct (String.eqb register.(data_type) "uint16"); [reflexivity|].
    destruct (String.eqb register.(data_type) "int16"); [|reflexivity].
    apply signed_roundtrip. }
  destruct (register.(count) =? 2).
  { destruct (index registers 0) as [r0|]; [simpl|reflexivity].
    destruct (index registers 1) as [r1|]; [simpl|reflexivity].
    destruct (String.eqb register.(data_type) "uint32"); [reflexivity|].
    destruct (String.eqb register.(data_type) "int32"); [apply signed_roundtrip|].
    destruct (String.eqb register.(data_type) "float32"); [|reflexivity].
    apply float32_roundtrip. }
  destruct (register.(count) =? 4); [|reflexivity].
  destruct (index registers 0) as [r0|]; [simpl|reflexivity].
  destruct (index registers 1) as [r1|]; [simpl|reflexivity].
  destruct (index registers 2) as [r2|]; [simpl|reflexivity].
  destruct (index registers 3) as [r3|]; [simpl|reflexivity].
  destruct (String.eqb register.(data_type) "uint64"); [reflexivity|].
  destruct (String.eqb register.(data_type) "int64"); [apply signed_roundtrip|].
  destruct (String.eqb register.(data_type) "float64"); [|reflexivity].
  apply float64_roundtrip.
Qed.

Lemma byte_order_irrelevant_witness :
  _decode_registers [65535; 65534] (a_register "level" 3 2 "int32" 1 1)
    (a_device "BIG" "BIG" [])
  = _decode_registers [65535; 65534] (a_register "level" 3 2 "int32" 1 1)
      (a_device "LITTLE" "BIG" []).
Proof. apply byte_order_irrelevant. reflexivity. Defined.

(** A word shifted above [n] bits and a value below [2 ^ n] do not
    overlap: or-ing them adds them. *)
Lemma lor_shiftl_add (hi lo n : Z) :
  0 <= n -> 0 <= lo < 2 ^ n -> Z.lor (Z.shiftl hi n) lo = hi * 2 ^ n + lo.
Proof.
  intros Hn Hlo.
  assert (Hland : Z.land (Z.shiftl hi n) lo = 0).
  { apply Z.bits_inj'. intros k Hk. rewrite Z.land_spec, Z.bits_0.
    destruct (Z.lt_ge_cases k n) as [Hlt|Hge].
    - now rewrite Z.shiftl_spec_low.
    - apply andb_false_intro2.
      destruct (Z.eq_dec lo 0) as [->|Hnz]; [apply Z.bits_0|].
      apply Z.bits_above_log2; [lia|].
      assert (Z.log2 lo < n) by (apply Z.log2_lt_pow2; lia). lia. }
  rewrite <- (Z.shiftl_mul_pow2 hi n Hn), <- Z.add_lor_land, Hland. lia.
Qed.

Lemma signed_of_packed {B : Type} (bo : Struct.endian) (n : nat) (x : Z) (k : Z -> py B) :
  0 <= x < 2 ^ (8 * Z.of_nat n) ->
  (let! bs := Struct.pack bo n x in let! v := Struct.unpack_signed bo n bs in k v)
  = k (twos_complement (8 * Z.of_nat n) x).
Proof.
  intros [Hlo Hhi].
  destruct (Struct.pack bo n x) as [bs|e] eqn:Hp.
  - cbn [py_bind]. unfold Struct.unpack_signed.
    now rewrite (unpack_bits_pack _ _ _ _ Hp).
  - unfold Struct.pack in Hp.
    apply Z.leb_le in Hlo. apply Z.ltb_lt in Hhi.
    rewrite Hlo, Hhi in Hp. discriminate.
Qed.

Lemma float32_of_packed {B : Type} (bo : Struct.endian) (x : Z) (k : spec_float -> py B) :
  0 <= x < 2 ^ 32 ->
  (let! bs := Struct.pack bo 4 x in let! v := Struct.unpack_float32 bo bs in k v)
  = k (PyFloat.of_bits 23 8 x).
Proof.
  intros [Hlo Hhi].
  destruct (Struct.pack bo 4 x) as [bs|e] eqn:Hp.
  - cbn [py_bind]. unfold Struct.unpack_float32.
    now rewrite (unpack_bits_pack _ _ _ _ Hp).
  - unfold Struct.pack in Hp.
    apply Z.leb_le in Hlo. apply Z.ltb_lt in Hhi.
    change (2 ^ (8 * Z.of_nat 4)) with (2 ^ 32) in Hp.
    rewrite Hlo, Hhi in Hp. discriminate.
Qed.

(** C1. Two-word values, of every value type: a 2-word register decodes
    the 16-bit words [w0; w1] to the scaling of the value its type gives
    to the raw 32 bits in which, under Big word order, the first word is
    the most significant one, and under any other word order the second
    one is; for [uint32] that value is the raw number itself; and decoding
    under a word order other than Big is decoding the swapped words under
    Big. *)
Theorem word_order_assembly (w0 w1 : Z) (rest : list Z) (register : ModbusRegister)
    (device : ModbusDevice) :
  register.(count) = 2 ->
  0 <= w0 < 2 ^ 16 ->
  0 <= w1 < 2 ^ 16 ->
  _decode_registers (w0 :: w1 :: rest) register device
  = try_or_None (
      let! scaled :=
        apply_scaling register
          (value_of_raw2 register.(data_type)
             (spec_assemble2 device.(word_order) w0 w1)) in
      Ret (Some scaled))
  /\ (register.(data_type) = "uint32"%string ->
      _decode_registers (w0 :: w1 :: rest) register device
      = try_or_None (
          let! scaled :=
            apply_scaling register (PInt (spec_assemble2 device.(word_order) w0 w1)) in
          Ret (Some scaled)))
  /\ (forall device' : ModbusDevice,
        device.(word_order) <> "BIG"%string ->
        device'.(word_order) = "BIG"%string ->
        device'.(byte_order) = device.(byte_order) ->
        _decode_registers (w0 :: w1 :: rest) register device
        = _decode_registers (w1 :: w0 :: rest) register device').
Proof.
  intros Hcount Hw0 Hw1.
  assert (Hall : _decode_registers (w0 :: w1 :: rest) register device
    = try_or_None (
        let! scaled :=
          apply_scaling register
            (value_of_raw2 register.(data_type)
               (spec_assemble2 device.(word_order) w0 w1)) in
        Ret (Some scaled))).
  { unfold _decode_registers, spec_assemble2, value_of_raw2.
    rewrite Hcount. cbn [length].
    replace (Z.of_nat (S (S (length rest))) <? 2) with false
      by (symmetry; apply Z.ltb_ge; lia).
    cbn -[Z.shiftl Z.lor Z.pow apply_scaling Struct.pack Struct.unpack_signed
          Struct.unpack_float32 twos_complement PyFloat.of_bits String.eqb].
    destruct (String.eqb device.(word_order) "BIG");
      rewrite lor_shiftl_add by lia;
      (destruct (String.eqb register.(data_type) "uint32"); [reflexivity|]);
      (destruct (String.eqb register.(data_type) "int32");
       [rewrite (signed_of_packed _ 4)
          by (change (2 ^ (8 * Z.of_nat 4)) with (2 ^ 32); lia);
        reflexivity|]);
      (destruct (String.eqb register.(data_type) "float32"); [|reflexivity]);
      rewrite float32_of_packed by lia; reflexivity. }
  split; [exact Hall|]. split.
  - intros Htype. rewrite Hall. unfold value_of_raw2. now rewrite Htype.
  - intros device' Hlittle Hbig Hbo. unfold _decode_registers.
    rewrite Hcount, Hbig, Hbo. cbn [length].
    apply String.eqb_neq in Hlittle. rewrite Hlittle. reflexivity.
Qed.

(** The words [0x0001; 0x0000] read as a 2-word unsigned value: 65536
    under Big word order, 1 under Little word order; and the words
    [0x0000; 0x3FC0] read as a [float32] under Little word order: 1.5, the
    number with the bits 0x3FC00000. *)
Lemma word_order_assembly_witness :
  _decode_registers [1; 0] (a_register "energy" 3 2 "uint32" 1 1) (a_device "BIG" "BIG" [])
  = Some (PInt 65536)
  /\ _decode_registers [1; 0] (a_register "energy" 3 2 "uint32" 1 1)
       (a_device "BIG" "LITTLE" [])
     = Some (PInt 1)
  /\ _decode_registers [0; 16320] (a_register "flow" 3 2 "float32" 1 1)
       (a_device "BIG" "LITTLE" [])
     = Some (PFloat (S754_finite false 6755399441055744 (-52))).
Proof.
  split; [|split].
  - rewrite (proj1 (word_order_assembly 1 0 [] (a_register "energy" 3 2 "uint32" 1 1)
               (a_device "BIG" "BIG" []) eq_refl ltac:(lia) ltac:(lia))).
    reflexivity.
  - rewrite (proj1 (word_order_assembly 1 0 [] (a_register "energy" 3 2 "uint32" 1 1)
               (a_device "BIG" "LITTLE" []) eq_refl ltac:(lia) ltac:(lia))).
    reflexivity.
  - rewrite (proj1 (word_order_assembly 0 16320 [] (a_register "flow" 3 2 "float32" 1 1)
               (a_device "BIG" "LITTLE" []) eq_refl ltac:(lia) ltac:(lia))).
    vm_compute. reflexivity.
Defined.

End Decoding.

(** ** Scaling *)

Section Scaling.
Import Config Poller.

Lemma cond_Zopp_mul (s : bool) (a b : Z) : cond_Zopp s a * b = cond_Zopp s (a * b).
Proof. destruct s; simpl; lia. Qed.

Lemma cond_Zopp_twice (s : bool) (a : Z) : cond_Zopp s (cond_Zopp s a) = a.
Proof. destruct s; simpl; lia. Qed.

(** [result == int(result)] holds exactly for the floats that are whole
    numbers, and [int(result)] is then that number. *)
Lemma to_int_eq_int (f : spec_float) :
  PyFloat.is_finite f = true ->
  exists n : Z,
    PyFloat.to_int f = Ret n
    /\ (PyFloat.eq_int f n = true <-> PyFloat.whole f)
    /\ (forall k : Z, PyFloat.is_integer f k -> k = n).
Proof.
  destruct f as [s|s| |s m e]; try discriminate; intros _.
  - exists 0. split; [reflexivity|]. split.
    + split; [|reflexivity]. intros _. exists 0. now split.
    + intros k [_ Hk]. simpl in Hk. lia.
  - exists (cond_Zopp s (Z.shiftl (Zpos m) e)). split; [reflexivity|].
    unfold PyFloat.whole, PyFloat.is_integer, PyFloat.eq_int.
    cbn [PyFloat.numerator PyFloat.denominator PyFloat.is_finite].
    destruct (0 <=? e) eqn:He.
    + apply Z.leb_le in He.
      rewrite Z.shiftl_mul_pow2 by exact He.
      rewrite Z.max_l, Z.max_r, Z.pow_0_r by lia.
      split.
      * split; [|intros _; apply Z.eqb_refl].
        intros _. exists (cond_Zopp s (Z.pos m * 2 ^ e)). split; [reflexivity|lia].
      * intros k [_ Hk]. lia.
    + apply Z.leb_gt in He.
      rewrite Z.shiftl_div_pow2 by lia.
      rewrite Z.max_r, Z.max_l, Z.pow_0_r, Z.mul_1_r by lia.
      assert (Hd : 0 < 2 ^ (- e)) by (apply Z.pow_pos_nonneg; lia).
      set (d := 2 ^ (- e)) in *.
      assert (Hexact : forall k : Z, cond_Zopp s (Z.pos m) = k * d ->
                k = cond_Zopp s (Z.pos m / d)).
      { intros k Hk.
        assert (Hm : Z.pos m = cond_Zopp s k * d).
        { rewrite cond_Zopp_mul, <- Hk. now rewrite cond_Zopp_twice. }
        rewrite Hm, Z.div_mul by lia. now rewrite cond_Zopp_twice. }
      split.
      * split.
        -- intros Heq. apply Z.eqb_eq in Heq.
           exists (cond_Zopp s (Z.pos m / d)). now split.
        -- intros [k [_ Hk]]. apply Z.eqb_eq.
           now rewrite <- (Hexact k Hk).
      * intros k [_ Hk]. now apply Hexact.
Qed.

(** C2. An integer register with scaling configured, applied to an int
    that converts to the float [v]: with [result] the binary64 quotient of
    [v * multiplier] by [divider], a zero divider raises; a result that is
    not finite raises; otherwise the value returned is the integer
    [result] stands for when [result] is whole, and the float [result]
    when it is not. *)
Theorem apply_scaling_integral (self : ModbusRegister) (z : Z) (v : spec_float) :
  is_integer_type self = true ->
  needs_scaling self = true ->
  PyFloat.of_int z = Ret v ->
  let result := SFdiv PyFloat.prec PyFloat.emax (PyFloat.mul v self.(multiplier)) self.(divider) in
  (PyFloat.is_zero self.(divider) = true ->
   apply_scaling self (PInt z) = Raise ZeroDivisionError)
  /\ (PyFloat.is_zero self.(divider) = false ->
      PyFloat.is_finite result = false ->
      exists e : exn, apply_scaling self (PInt z) = Raise e)
  /\ (PyFloat.is_zero self.(divider) = false ->
      PyFloat.is_finite result = true ->
      (forall n : Z, PyFloat.is_integer result n -> apply_scaling self (PInt z) = Ret (PInt n))
      /\ (~ PyFloat.whole result -> apply_scaling self (PInt z) = Ret (PFloat result))).
Proof.
  intros Hint Hscale Hv result.
  assert (Happly : apply_scaling self (PInt z) =
    let! result := PyFloat.truediv (PyFloat.mul v self.(multiplier)) self.(divider) in
    let! n := PyFloat.to_int result in
    if PyFloat.eq_int result n then
      let! n' := PyFloat.to_int result in Ret (PInt n')
    else Ret (PFloat result)).
  { unfold apply_scaling. rewrite Hscale, Hint. cbn [negb PyFloat.of_val].
    now rewrite Hv. }
  rewrite Happly. unfold PyFloat.truediv. fold result.
  split; [|split].
  - intros ->. reflexivity.
  - intros -> Hinf. cbn [py_bind].
    destruct result as [s|s| |s m e]; try discriminate; cbn; eauto.
  - intros -> Hfin. cbn [py_bind].
    destruct (to_int_eq_int result Hfin) as (n & Hn & Heq & Huniq).
    rewrite Hn. cbn [py_bind]. split.
    + intros k Hk. rewrite (Huniq k Hk).
      replace (PyFloat.eq_int result n) with true; [reflexivity|].
      symmetry. apply Heq. exists k. exact Hk.
    + intros Hnot. destruct (PyFloat.eq_int result n) eqn:E; [|reflexivity].
      exfalso. apply Hnot, Heq. reflexivity.
Qed.

(** A [uint16] register holding 100 with multiplier 1: divider 2 gives the
    integer 50, divider 3 a float that is not whole and lies between 33.33
    and 33.34. *)
Lemma apply_scaling_integral_witness :
  _decode_registers [100] (a_register "speed" 3 1 "uint16" 1 2) (a_device "BIG" "BIG" [])
  = Some (PInt 50)
  /\ exists r : spec_float,
       _decode_registers [100] (a_register "speed" 3 1 "uint16" 1 3)
         (a_device "BIG" "BIG" [])
       = Some (PFloat r)
       /\ ~ PyFloat.whole r
       /\ 3333 * PyFloat.denominator r < 100 * PyFloat.numerator r
          < 3334 * PyFloat.denominator r.
Proof.
  split.
  - change (_decode_registers [100] (a_register "speed" 3 1 "uint16" 1 2)
              (a_device "BIG" "BIG" []))
      with (try_or_None (
              let! scaled := apply_scaling (a_register "speed" 3 1 "uint16" 1 2) (PInt 100) in
              Ret (Some scaled))).
    destruct (apply_scaling_integral (a_register "speed" 3 1 "uint16" 1 2) 100
                (PyFloat.nearest 100) eq_refl eq_refl eq_refl) as (_ & _ & Hfin).
    destruct (Hfin eq_refl eq_refl) as [Hwhole _].
    rewrite (Hwhole 50); [reflexivity|].
    split; [reflexivity|]. vm_compute. reflexivity.
  - exists (S754_finite false 4691249611844267 (-47)).
    assert (Hnot : ~ PyFloat.whole (S754_finite false 4691249611844267 (-47))).
    { intros [k [_ Hk]].
      assert (Hodd : 4691249611844267 = k * 140737488355328) by exact Hk.
      lia. }
    split; [|split; [exact Hnot|vm_compute; split; reflexivity]].
    change (_decode_registers [100] (a_register "speed" 3 1 "uint16" 1 3)
              (a_device "BIG" "BIG" []))
      with (try_or_None (
              let! scaled := apply_scaling (a_register "speed" 3 1 "uint16" 1 3) (PInt 100) in
              Ret (Some scaled))).
    destruct (apply_scaling_integral (a_register "speed" 3 1 "uint16" 1 3) 100
                (PyFloat.nearest 100) eq_refl eq_refl eq_refl) as (_ & _ & Hfin).
    destruct (Hfin eq_refl eq_refl) as [_ Hfrac].
    rewrite Hfrac; [reflexivity|exact Hnot].
Defined.

(** C2 as stated fails: with a zero divider, and with a product beyond
    the range of floats, [apply_scaling] returns neither an integer nor a
    float, although the register is of an integer type and scaling is
    configured. *)
Lemma apply_scaling_raises :
  is_integer_type (a_register "speed" 3 1 "uint16" 1 0) = true
  /\ needs_scaling (a_register "speed" 3 1 "uint16" 1 0) = true
  /\ apply_scaling (a_register "speed" 3 1 "uint16" 1 0) (PInt 100)
     = Raise ZeroDivisionError
  /\ is_integer_type (a_register "speed" 3 1 "uint16" (10 ^ 308) 1) = true
  /\ needs_scaling (a_register "speed" 3 1 "uint16" (10 ^ 308) 1) = true
  /\ apply_scaling (a_register "speed" 3 1 "uint16" (10 ^ 308) 1) (PInt 65535)
     = Raise OverflowError.
Proof. repeat split; vm_compute; reflexivity. Qed.

End Scaling.


(** ** The poll cycle *)

Section PollCycle.
Import Config Poller.

(** C4. Coils and discrete inputs: the value read is the float of the
    first bit of the response, 0.0 or 1.0, or there is no value; the
    multiplier and the divider of the register play no part. *)
Theorem coil_value (env : bus) (i : nat) (client : ModbusSerialClient)
    (device : ModbusDevice) (register : ModbusRegister) :
  register.(function_code) = 1 \/ register.(function_code) = 2 ->
  read_register env i client device register
  = match env.(transact) i client (request_of device register) with
    | RespOk (b :: _) _ => Some (PFloat (float_of_bool b))
    | _ => None
    end
  /\ forall v : pyval,
       read_register env i client device register = Some v ->
       v = PFloat (S754_zero false) \/ v = PFloat PyFloat.one.
Proof.
  intros Hfc.
  assert (Hread : read_register env i client device register
    = match env.(transact) i client (request_of device register) with
      | RespOk (b :: _) _ => Some (PFloat (float_of_bool b))
      | _ => None
      end).
  { unfold read_register.
    destruct Hfc as [-> | ->]; cbn [Z.eqb orb Pos.eqb];
      destruct (env.(transact) i client (request_of device register))
        as [|[|b bits] regs|e]; reflexivity. }
  split; [exact Hread|].
  intros v. rewrite Hread.
  destruct (env.(transact) i client (request_of device register))
    as [|[|b bits] regs|e]; try discriminate.
  intros [= <-]. destruct b; [right|left]; reflexivity.
Qed.

(** A coil configured with multiplier 10 and divider 4 still reads 1.0. *)
Lemma coil_value_witness :
  read_register (a_bus ConnectOk plant) 0
    {| c_port := "/dev/ttyUSB0"; c_baudrate := 9600; c_parity := "N";
       c_stopbits := 1; c_bytesize := 8; c_timeout := S754_zero false |}
    (a_device "BIG" "BIG" []) (a_register "run" 1 1 "uint16" 10 4)
  = Some (PFloat PyFloat.one).
Proof.
  rewrite (proj1 (coil_value (a_bus ConnectOk plant) 0 _ (a_device "BIG" "BIG" [])
                    (a_register "run" 1 1 "uint16" 10 4) (or_introl eq_refl))).
  reflexivity.
Defined.

Lemma dict_set_nonempty {V : Type} (d : dict V) (k : string) (v : V) :
  dict_set d k v <> [].
Proof. destruct d as [|[k' v'] d]; simpl; [|destruct (String.eqb k' k)]; discriminate. Qed.

(** The events of a sweep: a read and a pacing delay for each register. *)
Lemma sweep_trace (env : bus) (client : ModbusSerialClient) (device : ModbusDevice)
    (regs : list ModbusRegister) :
  forall (i : nat) (data : dict pyval) (success_count : Z),
    snd (sweep env client device i regs data success_count) = sweep_events device regs.
Proof.
  induction regs as [|register rest IH]; intros i data sc; [reflexivity|].
  cbn [sweep].
  destruct (read_register env i client device register) as [v|].
  - specialize (IH (S i) (dict_set data register.(tag) v) (sc + 1)).
    destruct (sweep env client device (S i) rest _ _) as [[d s] t].
    simpl in *. now rewrite IH.
  - specialize (IH (S i) data sc).
    destruct (sweep env client device (S i) rest _ _) as [[d s] t].
    simpl in *. now rewrite IH.
Qed.

(** The counter of a sweep grows exactly when some read gives a value,
    and the dictionary stays empty exactly when none does. *)
Lemma sweep_count (env : bus) (client : ModbusSerialClient) (device : ModbusDevice)
    (regs : list ModbusRegister) :
  forall (i : nat) (data : dict pyval) (sc : Z) (data' : dict pyval) (sc' : Z)
         (tr : list event),
    sweep env client device i regs data sc = (data', sc', tr) ->
    sc <= sc'
    /\ (sc < sc' <->
        exists (j : nat) (register : ModbusRegister) (v : pyval),
          regs !! j = Some register
          /\ read_register env (i + j)%nat client device register = Some v)
    /\ (data' = [] <-> data = [] /\ sc' = sc).
Proof.
  induction regs as [|register rest IH]; intros i data sc data' sc' tr.
  - cbn [sweep]. intros [= <- <- <-]. split; [lia|]. split.
    + split; [lia|]. intros (j & r & v & Hj & _). discriminate.
    + tauto.
  - cbn [sweep].
    destruct (read_register env i client device register) as [v|] eqn:Hread.
    + destruct (sweep env client device (S i) rest _ _) as [[d s] t] eqn:Hrest.
      intros [= <- <- <-].
      destruct (IH _ _ _ _ _ _ Hrest) as (Hle & _ & Hdata).
      split; [lia|]. split.
      * split; [|lia]. intros _. exists O, register, v.
        rewrite Nat.add_0_r. now split.
      * split.
        -- intros Hd. apply Hdata in Hd as [Hd _].
           now apply dict_set_nonempty in Hd.
        -- intros [_ Hs]. lia.
    + destruct (sweep env client device (S i) rest _ _) as [[d s] t] eqn:Hrest.
      intros [= <- <- <-].
      destruct (IH _ _ _ _ _ _ Hrest) as (Hle & Hlt & Hdata).
      split; [exact Hle|]. split; [|exact Hdata].
      rewrite Hlt. split.
      * intros (j & r & v & Hj & Hv). exists (S j), r, v.
        split; [exact Hj|]. now rewrite Nat.add_succ_r.
      * intros (j & r & v & Hj & Hv). destruct j as [|j].
        -- rewrite Nat.add_0_r in Hv. simpl in Hj. congruence.
        -- exists j, r, v. split; [exact Hj|]. now rewrite Nat.add_succ_r in Hv.
Qed.

(** A client once returned by [get_client] has its lock. *)
Lemma get_client_lock (self : ModbusPoller) (device : ModbusDevice) (env : bus)
    (client : ModbusSerialClient) :
  consistent self ->
  acquired self device env = Ret (Some client) ->
  key_of device ∈ (snd (fst (get_client self device env))).(locks).
Proof.
  intros Hcons. unfold acquired, get_client.
  destruct (self.(clients) !! key_of device) as [c|] eqn:Hkey.
  - intros _. simpl. apply Hcons. now rewrite Hkey.
  - destruct (env.(connect) _); simpl; try discriminate.
    intros _. set_solver.
Qed.

Lemma get_client_consistent (self : ModbusPoller) (device : ModbusDevice) (env : bus) :
  consistent self -> consistent (snd (fst (get_client self device env))).
Proof.
  intros Hcons. unfold get_client.
  destruct (self.(clients) !! key_of device) as [c|] eqn:Hkey; [exact Hcons|].
  destruct (env.(connect) _); simpl; try exact Hcons.
  intros key. simpl. intros Hsome.
  destruct (decide (key = key_of device)) as [->|Hne]; [set_solver|].
  rewrite lookup_insert_ne in Hsome by congruence.
  apply Hcons in Hsome. set_solver.
Qed.

Lemma get_client_trace (self : ModbusPoller) (device : ModbusDevice) (env : bus) :
  snd (get_client self device env) = [EvLock CreateLock; EvUnlock CreateLock].
Proof.
  unfold get_client.
  destruct (self.(clients) !! key_of device); [reflexivity|].
  destruct (env.(connect) _); reflexivity.
Qed.

(** [poll_device], case by case on what [get_client] gives. *)
Lemma poll_device_cases (self : ModbusPoller) (device : ModbusDevice) (env : bus) :
  consistent self ->
  match acquired self device env with
  | Raise e =>
      polled self device env = Raise e
      /\ snd (poll_device self device env) = [EvLock CreateLock; EvUnlock CreateLock]
  | Ret None =>
      polled self device env
      = Ret {| rd_device := device.(name); rd_device_type := device.(device_type);
               rd_unit_id := device.(unit_id); rd_status := "disconnected";
               rd_data := [] |}
      /\ snd (poll_device self device env) = [EvLock CreateLock; EvUnlock CreateLock]
  | Ret (Some client) =>
      exists (data : dict pyval) (success_count : Z),
        polled self device env
        = Ret {| rd_device := device.(name); rd_device_type := device.(device_type);
                 rd_unit_id := device.(unit_id);
                 rd_status := if 0 <? success_count then "connected" else "error";
                 rd_data := data |}
        /\ (0 < success_count <-> some_decoded env client device device.(registers))
        /\ (data <> [] <-> some_decoded env client device device.(registers))
        /\ snd (poll_device self device env)
           = [EvLock CreateLock; EvUnlock CreateLock]
               ++ [EvLock (PortLock (key_of device))]
               ++ sweep_events device device.(registers)
               ++ [EvUnlock (PortLock (key_of device))]
  end.
Proof.
  intros Hcons.
  pose proof (get_client_lock self device env) as Hlock.
  pose proof (get_client_trace self device env) as Htrace.
  unfold polled, poll_device, acquired in *.
  destruct (get_client self device env) as [[r self'] tr]. simpl in *. subst tr.
  destruct r as [[client|]|e]; [|now split|now split].
  specialize (Hlock client Hcons eq_refl).
  rewrite bool_decide_eq_true_2 by exact Hlock.
  pose proof (sweep_trace env client device device.(registers) O [] 0) as Hsweep.
  destruct (sweep env client device 0 device.(registers) [] 0) as [[data sc] t] eqn:Hs.
  simpl in Hsweep. subst t.
  destruct (sweep_count _ _ _ _ _ _ _ _ _ _ Hs) as (Hle & Hlt & Hdata).
  exists data, sc. simpl. split; [reflexivity|]. split; [exact Hlt|].
  split; [|reflexivity].
  rewrite <- Hlt. split.
  - intros Hne. destruct (Z.eq_dec sc 0) as [->|]; [|lia].
    exfalso. apply Hne, Hdata. now split.
  - intros Hpos Hd. apply Hdata in Hd as [_ ->]. lia.
Qed.

Lemma fresh_consistent : consistent fresh_poller.
Proof. intros key [c Hc]. simpl in Hc. now rewrite lookup_empty in Hc. Qed.

(** C3. One poll of a device, on a poller in which every cached client
    has its lock: when no client is obtained the reading is
    ['disconnected'] and holds no value; when a client is obtained the
    reading is not ['disconnected'], it is ['connected'] with a value when
    some register read gives a value, and ['error'] without any value when
    none does. *)
Theorem poll_device_status (self : ModbusPoller) (device : ModbusDevice) (env : bus) :
  consistent self ->
  match acquired self device env with
  | Raise e => polled self device env = Raise e
  | Ret None =>
      exists rd : Reading,
        polled self device env = Ret rd
        /\ rd.(rd_status) = "disconnected"%string
        /\ rd.(rd_data) = []
  | Ret (Some client) =>
      exists rd : Reading,
        polled self device env = Ret rd
        /\ rd.(rd_status) <> "disconnected"%string
        /\ (some_decoded env client device device.(registers) ->
            rd.(rd_status) = "connected"%string /\ rd.(rd_data) <> [])
        /\ (~ some_decoded env client device device.(registers) ->
            rd.(rd_status) = "error"%string /\ rd.(rd_data) = [])
  end.
Proof.
  intros Hcons. pose proof (poll_device_cases self device env Hcons) as Hcases.
  destruct (acquired self device env) as [[client|]|e].
  - destruct Hcases as (data & sc & Hpoll & Hcount & Hdata & _).
    eexists. split; [exact Hpoll|]. cbn [rd_status rd_data].
    split; [destruct (0 <? sc); discriminate|]. split.
    + intros Hsome. split; [|now apply Hdata].
      apply Hcount in Hsome. apply Z.ltb_lt in Hsome. now rewrite Hsome.
    + intros Hnone. split.
      * destruct (0 <? sc) eqn:Hsc; [|reflexivity].
        apply Z.ltb_lt in Hsc. now apply Hcount in Hsc.
      * destruct data as [|kv data]; [reflexivity|].
        exfalso. apply Hnone, Hdata. discriminate.
  - destruct Hcases as [Hpoll _]. eexists. split; [exact Hpoll|]. now split.
  - apply Hcases.
Qed.

(** A port that does not open: the reading is ['disconnected'], without
    values. *)
Lemma poll_device_status_witness :
  exists rd : Reading,
    polled fresh_poller two_register_device (a_bus ConnectRefused silent) = Ret rd
    /\ rd.(rd_status) = "disconnected"%string
    /\ rd.(rd_data) = [].
Proof.
  exact (poll_device_status fresh_poller two_register_device
           (a_bus ConnectRefused silent) fresh_consistent).
Defined.

(** The end-to-end scenario: [temp] reads 250 with divider 10, [run] is a
    coil that reads 1. *)
Example poll_two_registers :
  polled fresh_poller two_register_device (a_bus ConnectOk plant)
  = Ret {| rd_device := "pump 1"; rd_device_type := "pump"; rd_unit_id := 1;
           rd_status := "connected";
           rd_data := [("temp"%string, PInt 25); ("run"%string, PFloat PyFloat.one)] |}.
Proof. vm_compute. reflexivity. Qed.

Lemma pacing_count_app (tr tr' : list event) :
  Trace.pacing_count (tr ++ tr') = (Trace.pacing_count tr + Trace.pacing_count tr')%nat.
Proof.
  induction tr as [|ev tr IH]; [reflexivity|].
  destruct ev as [l|l|d t|[]|m]; simpl; rewrite ?IH; reflexivity.
Qed.

Lemma pacing_count_sweep (device : ModbusDevice) (regs : list ModbusRegister) :
  Trace.pacing_count (sweep_events device regs) = length regs.
Proof. induction regs as [|r regs IH]; simpl; [reflexivity|now rewrite IH]. Qed.

Lemma paced_sweep (device : ModbusDevice) (regs : list ModbusRegister) (tr : list event) :
  Trace.paced tr -> Trace.paced (sweep_events device regs ++ tr).
Proof. intros Htr. induction regs as [|r regs IH]; simpl; [exact Htr|exact IH]. Qed.

(** C6, as the code has it. When a client is obtained, the trace of one
    poll is: the creation lock taken and given back, the lock of the port
    taken, then for each register its read followed by a pacing delay of
    80 ms, then the lock of the port given back. A sweep of [n] registers
    makes [n] pacing delays: every read is followed by one, the last read
    too. *)
Theorem pacing_after_every_read (self : ModbusPoller) (device : ModbusDevice) (env : bus)
    (client : ModbusSerialClient) :
  consistent self ->
  acquired self device env = Ret (Some client) ->
  snd (poll_device self device env)
  = [EvLock CreateLock; EvUnlock CreateLock; EvLock (PortLock (key_of device))]
      ++ sweep_events device device.(registers)
      ++ [EvUnlock (PortLock (key_of device))]
  /\ Trace.pacing_count (snd (poll_device self device env)) = length device.(registers)
  /\ Trace.paced (snd (poll_device self device env))
  /\ pause_ms Pacing = 80.
Proof.
  intros Hcons Hacq. pose proof (poll_device_cases self device env Hcons) as Hcases.
  rewrite Hacq in Hcases. destruct Hcases as (data & sc & _ & _ & _ & Htr).
  rewrite Htr. split; [reflexivity|]. split; [|split; [|reflexivity]].
  - cbn [app Trace.pacing_count].
    now rewrite pacing_count_app, pacing_count_sweep, Nat.add_0_r.
  - cbn [app Trace.paced]. apply paced_sweep. exact I.
Qed.

Lemma pacing_after_every_read_witness :
  Trace.pacing_count
    (snd (poll_device fresh_poller two_register_device (a_bus ConnectOk plant)))
  = 2%nat.
Proof.
  exact (proj1 (proj2 (pacing_after_every_read fresh_poller two_register_device
                         (a_bus ConnectOk plant) _ fresh_consistent eq_refl))).
Defined.

(** C6 as stated fails: a sweep of two registers makes two pacing delays,
    not one, and the second one follows the last read. *)
Lemma pacing_after_last_register :
  length two_register_device.(registers) = 2%nat
  /\ Trace.pacing_count
       (snd (poll_device fresh_poller two_register_device (a_bus ConnectOk plant)))
     <> (length two_register_device.(registers) - 1)%nat
  /\ snd (poll_device fresh_poller two_register_device (a_bus ConnectOk plant))
     = [EvLock CreateLock; EvUnlock CreateLock;
        EvLock (PortLock "/dev/ttyUSB0_9600_N");
        EvRead "pump 1" "temp"; EvSleep Pacing;
        EvRead "pump 1" "run"; EvSleep Pacing;
        EvUnlock (PortLock "/dev/ttyUSB0_9600_N")].
Proof. split; [reflexivity|]. split; [vm_compute; discriminate|vm_compute; reflexivity]. Qed.

End PollCycle.

(** ** The polling loop *)

Section PollingLoop.
Import Config Poller Publisher Bridge.

Lemma sleeps_app (held : list lock_id) (tr tr' : list event) :
  Trace.sleeps held (tr ++ tr')
  = Trace.sleeps held tr ++ Trace.sleeps (Trace.held_after held tr) tr'.
Proof.
  revert held. induction tr as [|ev tr IH]; intros held; [reflexivity|].
  destruct ev; simpl; rewrite IH; reflexivity.
Qed.

Lemma held_after_app (held : list lock_id) (tr tr' : list event) :
  Trace.held_after held (tr ++ tr') = Trace.held_after (Trace.held_after held tr) tr'.
Proof.
  revert held. induction tr as [|ev tr IH]; intros held; [reflexivity|].
  destruct ev; simpl; rewrite IH; reflexivity.
Qed.

Lemma remove_only (l : lock_id) : List.remove lock_id_eq_dec l [l] = [].
Proof. simpl. destruct (lock_id_eq_dec l l); [reflexivity|congruence]. Qed.

Lemma sleeps_sweep (held : list lock_id) (device : ModbusDevice)
    (regs : list ModbusRegister) :
  Trace.sleeps held (sweep_events device regs) = map (fun _ => (Pacing, held)) regs
  /\ Trace.held_after held (sweep_events device regs) = held.
Proof.
  induction regs as [|r regs [IHs IHh]]; [now split|].
  simpl. now rewrite IHs, IHh.
Qed.

Lemma sleeps_publish (held : list lock_id) (ms : list message) :
  Trace.sleeps held (map EvPublish ms) = []
  /\ Trace.held_after held (map EvPublish ms) = held.
Proof. induction ms as [|m ms [IHs IHh]]; [now split|]. simpl. now split. Qed.

Lemma poll_device_state (self : ModbusPoller) (device : ModbusDevice) (env : bus) :
  snd (fst (poll_device self device env)) = snd (fst (get_client self device env)).
Proof.
  unfold poll_device.
  destruct (get_client self device env) as [[r self'] tr].
  destruct r as [[client|]|e]; [|reflexivity|reflexivity].
  destruct (bool_decide _); [|reflexivity].
  destruct (sweep _ _ _ _ _ _ _) as [[d s] t]. reflexivity.
Qed.

(** The sleeps of what [poll_device] does: pacing delays under the lock of
    the port, and no lock left held. *)
Lemma poll_device_sleeps (self : ModbusPoller) (device : ModbusDevice) (env : bus) :
  consistent self ->
  Trace.held_after [] (snd (poll_device self device env)) = []
  /\ exists n : nat,
       Trace.sleeps [] (snd (poll_device self device env))
       = repeat (Pacing, [PortLock (key_of device)]) n.
Proof.
  intros Hcons. pose proof (poll_device_cases self device env Hcons) as Hcases.
  destruct (acquired self device env) as [[client|]|e].
  - destruct Hcases as (data & sc & _ & _ & _ & ->).
    cbn [app Trace.sleeps Trace.held_after List.remove].
    destruct (lock_id_eq_dec CreateLock CreateLock); [|congruence].
    rewrite held_after_app, sleeps_app.
    destruct (sleeps_sweep [PortLock (key_of device)] device device.(registers))
      as [-> ->].
    cbn [Trace.sleeps Trace.held_after]. rewrite remove_only, app_nil_r.
    split; [reflexivity|]. exists (length device.(registers)).
    induction device.(registers) as [|r regs IH]; simpl; [reflexivity|now rewrite IH].
  - destruct Hcases as [_ ->]. split; [reflexivity|]. now exists O.
  - destruct Hcases as [_ ->]. split; [reflexivity|]. now exists O.
Qed.

Lemma sleep_interval_sleeps (env : cycle_env) (device : ModbusDevice) :
  Trace.held_after [] (sleep_interval env device) = []
  /\ (Trace.sleeps [] (sleep_interval env device) = [(Cooldown, [])]
      \/ Trace.sleeps [] (sleep_interval env device)
         = [(Interval device.(poll_period), [])]).
Proof.
  unfold sleep_interval. destruct (poll_interval device) as [seconds|e]; [|simpl; auto].
  destruct (_ || _); simpl; auto.
Qed.

(** A trace made of what [poll_device] does, of messages published and of
    one sleep that ends the cycle leaves no lock held and sleeps as
    designed. *)
Lemma cycle_trace_sleeps (self : ModbusPoller) (device : ModbusDevice) (env : bus)
    (sent : list message) (tail : list event) :
  consistent self ->
  Trace.held_after [] tail = [] ->
  (Trace.sleeps [] tail = [(Cooldown, [])]
   \/ Trace.sleeps [] tail = [(Interval device.(poll_period), [])]) ->
  Trace.held_after [] (snd (poll_device self device env) ++ map EvPublish sent ++ tail) = []
  /\ sleeps_as_designed device
       (snd (poll_device self device env) ++ map EvPublish sent ++ tail).
Proof.
  intros Hcons Htail Hcases.
  destruct (poll_device_sleeps self device env Hcons) as (Hheld & n & Hsleeps).
  destruct (sleeps_publish [] sent) as [Hps Hph].
  split.
  - now rewrite !held_after_app, Hheld, Hph.
  - intros p held. rewrite !sleeps_app, Hheld, Hph, Hsleeps, Hps.
    cbn [app]. rewrite in_app_iff. intros [Hin|Hin].
    + apply repeat_spec in Hin. now inversion Hin.
    + destruct Hcases as [Heq|Heq]; rewrite Heq in Hin;
        destruct Hin as [[= <- <-]|[]]; reflexivity.
Qed.

(** One iteration of the loop keeps the invariant of the poller, leaves no
    lock held and sleeps as designed. *)
Lemma run_cycle_sleeps (poller : ModbusPoller) (device : ModbusDevice)
    (base_topic : string) (env : cycle_env) :
  consistent poller ->
  consistent (fst (run_cycle poller device base_topic env))
  /\ Trace.held_after [] (snd (run_cycle poller device base_topic env)) = []
  /\ sleeps_as_designed device (snd (run_cycle poller device base_topic env)).
Proof.
  intros Hcons.
  pose proof (poll_device_state poller device env.(serial)) as Hstate.
  pose proof (get_client_consistent poller device env.(serial) Hcons) as Hcons'.
  pose proof (cycle_trace_sleeps poller device env.(serial)) as Htrace.
  destruct (sleep_interval_sleeps env device) as [His Hcases].
  unfold run_cycle.
  destruct (poll_device poller device env.(serial)) as [[r poller'] tr].
  simpl in Hstate, Htrace. rewrite <- Hstate in Hcons'.
  destruct r as [device_data|e].
  - destruct device_data.(rd_data) as [|kv data].
    + cbn [fst snd]. split; [exact Hcons'|].
      apply (Htrace [] (sleep_interval env device) Hcons His Hcases).
    + destruct (publish _ _ _ _ _) as [published sent].
      destruct published as [b|e]; cbn [fst snd]; (split; [exact Hcons'|]).
      * apply (Htrace sent (sleep_interval env device) Hcons His Hcases).
      * apply (Htrace sent [EvSleep Cooldown] Hcons eq_refl). now left.
  - cbn [fst snd]. split; [exact Hcons'|].
    apply (Htrace [] [EvSleep Cooldown] Hcons eq_refl). now left.
Qed.

(** The loop keeps the invariant, leaves no lock held and sleeps as
    designed, whatever the number of its iterations. *)
Lemma run_loop_sleeps (device : ModbusDevice) (base_topic : string)
    (envs : list cycle_env) :
  forall poller : ModbusPoller,
    consistent poller ->
    Trace.held_after [] (snd (run_loop poller device base_topic envs)) = []
    /\ sleeps_as_designed device (snd (run_loop poller device base_topic envs)).
Proof.
  induction envs as [|env envs IH]; intros poller Hcons.
  - split; [reflexivity|]. intros p held [].
  - cbn [run_loop].
    destruct (run_cycle_sleeps poller device base_topic env Hcons)
      as (Hcons' & Hheld & Hsleeps).
    destruct (run_cycle poller device base_topic env) as [poller' tr].
    cbn [fst snd] in *.
    destruct (IH poller' Hcons') as [Hheld' Hsleeps'].
    destruct (run_loop poller' device base_topic envs) as [poller'' tr'].
    cbn [fst snd] in *. split.
    + now rewrite held_after_app, Hheld.
    + intros p held. rewrite sleeps_app, Hheld, in_app_iff.
      intros [Hin|Hin]; [now apply Hsleeps|now apply Hsleeps'].
Qed.

(** C7, as the code has it. In every run of the polling thread of a
    device, of any number of cycles, from a poller in which every cached
    client has its lock: the sleep between two cycles and the cooldown
    after a fault happen with no lock held, and each pacing delay happens
    with the lock of the port of the device held, and no other lock. *)
Theorem run_sleeps (poller : ModbusPoller) (device : ModbusDevice)
    (base_topic : string) (envs : list cycle_env) :
  consistent poller ->
  Trace.held_after [] (snd (run poller device base_topic envs)) = []
  /\ sleeps_as_designed device (snd (run poller device base_topic envs)).
Proof.
  intros Hcons. unfold run.
  destruct (poll_interval device) as [seconds|e].
  - now apply run_loop_sleeps.
  - split; [reflexivity|]. intros p held [].
Qed.

Lemma run_sleeps_witness :
  sleeps_as_designed two_register_device
    (snd (run fresh_poller two_register_device "modbus"
            [a_cycle (a_bus ConnectOk plant) true; a_cycle (a_bus ConnectFault silent) true])).
Proof.
  exact (proj2 (run_sleeps fresh_poller two_register_device "modbus"
                  [a_cycle (a_bus ConnectOk plant) true;
                   a_cycle (a_bus ConnectFault silent) true] fresh_consistent)).
Defined.

(** C7 as stated fails: in one cycle of a device with two registers, both
    pacing delays are slept with the lock of the port held. *)
Lemma pacing_sleeps_under_port_lock :
  Trace.sleeps []
    (snd (run fresh_poller two_register_device "modbus"
            [a_cycle (a_bus ConnectOk plant) true]))
  = [(Pacing, [PortLock "/dev/ttyUSB0_9600_N"]);
     (Pacing, [PortLock "/dev/ttyUSB0_9600_N"]);
     (Interval 1000, [])]
  /\ ~ Trace.sleeps_unlocked
         (snd (run fresh_poller two_register_device "modbus"
                 [a_cycle (a_bus ConnectOk plant) true])).
Proof.
  assert (Hsleeps : Trace.sleeps []
    (snd (run fresh_poller two_register_device "modbus"
            [a_cycle (a_bus ConnectOk plant) true]))
    = [(Pacing, [PortLock "/dev/ttyUSB0_9600_N"]);
       (Pacing, [PortLock "/dev/ttyUSB0_9600_N"]);
       (Interval 1000, [])]) by (vm_compute; reflexivity).
  split; [exact Hsleeps|].
  intros Hunlocked.
  specialize (Hunlocked Pacing [PortLock "/dev/ttyUSB0_9600_N"]).
  rewrite Hsleeps in Hunlocked.
  specialize (Hunlocked (or_introl eq_refl)). discriminate.
Qed.

Lemma status_messages_app (tr tr' : list event) :
  Trace.status_messages (tr ++ tr')
  = Trace.status_messages tr ++ Trace.status_messages tr'.
Proof.
  induction tr as [|ev tr IH]; [reflexivity|].
  destruct ev as [l|l|d t|p|m]; simpl; try exact IH.
  destruct m.(msg_payload); simpl; now rewrite IH.
Qed.

Lemma status_messages_sweep (device : ModbusDevice) (regs : list ModbusRegister) :
  Trace.status_messages (sweep_events device regs) = [].
Proof. induction regs as [|r regs IH]; [reflexivity|exact IH]. Qed.

Lemma status_messages_poll (self : ModbusPoller) (device : ModbusDevice) (env : bus) :
  consistent self ->
  Trace.status_messages (snd (poll_device self device env)) = [].
Proof.
  intros Hcons. pose proof (poll_device_cases self device env Hcons) as Hcases.
  destruct (acquired self device env) as [[client|]|e].
  - destruct Hcases as (data & sc & _ & _ & _ & ->).
    cbn [app Trace.status_messages].
    now rewrite status_messages_app, status_messages_sweep.
  - now destruct Hcases as [_ ->].
  - now destruct Hcases as [_ ->].
Qed.

Lemma status_messages_sleep (env : cycle_env) (device : ModbusDevice) :
  Trace.status_messages (sleep_interval env device) = [].
Proof.
  unfold sleep_interval. destruct (poll_interval device); [|reflexivity].
  now destruct (_ || _).
Qed.

(** The per-tag messages the client took hold no status message. *)
Lemma status_messages_tags (client : message -> publish_outcome)
    (base_topic device_name timestamp : string) (data : dict pyval) :
  Trace.status_messages
    (map EvPublish
       (snd (send_tags client (tag_messages base_topic device_name timestamp data))))
  = [].
Proof.
  induction data as [|[tag value] data IH]; [reflexivity|].
  cbn [tag_messages map send_tags] in *.
  destruct (client _); [|reflexivity].
  destruct (send_tags client _) as [r sent]. exact IH.
Qed.

(** A reading that holds a value is ['connected']. *)
Lemma data_means_connected (self : ModbusPoller) (device : ModbusDevice) (env : bus)
    (rd : Reading) :
  consistent self ->
  polled self device env = Ret rd ->
  rd.(rd_data) <> [] ->
  rd.(rd_status) = "connected"%string /\ rd.(rd_device) = device.(name).
Proof.
  intros Hcons Hpoll Hdata.
  pose proof (poll_device_cases self device env Hcons) as Hcases.
  destruct (acquired self device env) as [[client|]|e].
  - destruct Hcases as (data & sc & Heq & Hcount & Hsome & _).
    rewrite Heq in Hpoll. injection Hpoll as <-. cbn in *.
    apply Hsome, Hcount, Z.ltb_lt in Hdata. now rewrite Hdata.
  - destruct Hcases as [Heq _]. rewrite Heq in Hpoll. injection Hpoll as <-.
    now cbn in Hdata.
  - destruct Hcases as [Heq _]. congruence.
Qed.

(** C8, as the code has it by design. One iteration of the polling loop,
    from a poller in which every cached client has its lock, whose poll
    gives a reading that holds a value: when the MQTT session is up and
    the client takes the status message, exactly one status message is
    published, on the status topic of the device, and it says
    ['connected']; when the session is down, or when the client raises
    for the status message, no status message is published. *)
Theorem status_message_per_cycle (poller : ModbusPoller) (device : ModbusDevice)
    (base_topic : string) (env : cycle_env) (rd : Reading) :
  consistent poller ->
  polled poller device env.(serial) = Ret rd ->
  rd.(rd_data) <> [] ->
  let status_message :=
    {| msg_topic :=
         (base_topic +:+ "/" +:+ replace_spaces device.(name) +:+ "/status")%string;
       msg_payload := StatusPayload "connected" env.(now);
       msg_qos := 1;
       msg_retain := true |} in
  Trace.status_messages (snd (run_cycle poller device base_topic env))
  = if env.(mqtt_connected) then
      match env.(mqtt_client) status_message with
      | PublishRc _ => [status_message]
      | PublishRaises _ => []
      end
    else [].
Proof.
  intros Hcons Hpoll Hdata status_message.
  pose proof (status_messages_poll poller device env.(serial) Hcons) as Hquiet.
  destruct (data_means_connected poller device env.(serial) rd Hcons Hpoll Hdata)
    as [Hstatus Hname].
  unfold run_cycle, polled in *.
  destruct (poll_device poller device env.(serial)) as [[r poller'] tr].
  cbn [fst snd] in *. subst r.
  destruct rd.(rd_data) as [|kv data] eqn:Hrd; [congruence|].
  unfold publish. rewrite Hrd, Hstatus, Hname. fold status_message.
  destruct env.(mqtt_connected); cbn [negb].
  - destruct (env.(mqtt_client) status_message) as [rc|e]; cbn [snd].
    + destruct (env.(mqtt_client) _) as [[|]|e]; cbn [snd].
      * pose proof (status_messages_tags env.(mqtt_client) base_topic
                      (replace_spaces device.(name)) env.(now) (kv :: data)) as Htags.
        destruct (send_tags env.(mqtt_client) _) as [raised sent].
        cbn [snd] in Htags.
        subst status_message.
        destruct raised; cbn [snd];
          rewrite status_messages_app, Hquiet;
          cbn [map app Trace.status_messages msg_payload];
          rewrite status_messages_app, Htags, ?status_messages_sleep; reflexivity.
      * now rewrite !status_messages_app, Hquiet, status_messages_sleep.
      * now rewrite !status_messages_app, Hquiet.
    + now rewrite !status_messages_app, Hquiet.
  - cbn [snd map app]. now rewrite status_messages_app, Hquiet, status_messages_sleep.
Qed.

Lemma status_message_per_cycle_witness :
  Trace.status_messages
    (snd (run_cycle fresh_poller two_register_device "modbus"
            (a_cycle (a_bus ConnectOk plant) true)))
  = [ {| msg_topic := "modbus/pump_1/status";
         msg_payload := StatusPayload "connected" "2024-05-01T10:00:00Z";
         msg_qos := 1;
         msg_retain := true |} ].
Proof.
  assert (Hpoll : polled fresh_poller two_register_device
                    (Bridge.serial (a_cycle (a_bus ConnectOk plant) true))
                  = Ret {| rd_device := "pump 1"; rd_device_type := "pump";
                           rd_unit_id := 1; rd_status := "connected";
                           rd_data := [("temp"%string, PInt 25);
                                       ("run"%string, PFloat PyFloat.one)] |})
    by (vm_compute; reflexivity).
  refine (eq_trans
            (status_message_per_cycle fresh_poller two_register_device "modbus"
               (a_cycle (a_bus ConnectOk plant) true) _ fresh_consistent Hpoll _) _).
  - discriminate.
  - vm_compute. reflexivity.
Defined.

(** C8 as stated fails: a cycle that ends with a ['connected'] reading of
    two values while the MQTT session is down publishes no status
    message. *)
Lemma no_status_when_offline :
  polled fresh_poller two_register_device (a_bus ConnectOk plant)
  = Ret {| rd_device := "pump 1"; rd_device_type := "pump"; rd_unit_id := 1;
           rd_status := "connected";
           rd_data := [("temp"%string, PInt 25); ("run"%string, PFloat PyFloat.one)] |}
  /\ Trace.status_messages
       (snd (run_cycle fresh_poller two_register_device "modbus"
               (a_cycle (a_bus ConnectOk plant) false)))
     = [].
Proof. split; vm_compute; reflexivity. Qed.

(** A reading without values, here ['disconnected'] for a port that does
    not open: the loop does not call [publish]. *)
Example empty_reading_not_published :
  snd (run_cycle fresh_poller two_register_device "modbus"
         (a_cycle (a_bus ConnectRefused silent) true))
  = [EvLock CreateLock; EvUnlock CreateLock; EvSleep (Interval 1000)].
Proof. vm_compute. reflexivity. Qed.

(** A device whose name holds [#]: the client raises for the status
    topic, nothing is published and the thread sleeps the cooldown. *)
Example wildcard_in_device_name :
  snd (run_cycle fresh_poller
         {| name := "Pump #1"; device_type := "pump"; unit_id := 1;
            port := "/dev/ttyUSB0"; baudrate := 9600; parity := "N";
            stopbits := 1; bytesize := 8; timeout := S754_zero false;
            poll_period := 1000; byte_order := "BIG"; word_order := "BIG";
            registers := [a_register "temp" 3 1 "uint16" 1 10] |}
         "modbus" (a_cycle (a_bus ConnectOk plant) true))
  = [EvLock CreateLock; EvUnlock CreateLock;
     EvLock (PortLock "/dev/ttyUSB0_9600_N");
     EvRead "Pump #1" "temp"; EvSleep Pacing;
     EvUnlock (PortLock "/dev/ttyUSB0_9600_N");
     EvSleep Cooldown].
Proof. vm_compute. reflexivity. Qed.

End PollingLoop.

(** ** Configuration *)

Section Configuration.
Import Config Poller.

(** Every entry of [TYPE_MAPPING], and the default taken for a type that
    is not in it, pairs a value type with its width in words. *)
Lemma type_mapping_width (data_type : string) :
  spec_word_count (fst (dict_get TYPE_MAPPING data_type ("uint16"%string, 1)))
  = Some (snd (dict_get TYPE_MAPPING data_type ("uint16"%string, 1))).
Proof.
  unfold TYPE_MAPPING. cbn [dict_get].
  repeat (match goal with
          | |- context [String.eqb ?a data_type] => destruct (String.eqb a data_type)
          end; [reflexivity|]).
  reflexivity.
Qed.

(** C9, as the code has it. A register definition that is accepted has
    the word count of its value type when it gives no [objectsCount]; when
    it gives one, that number is its word count, whatever the value type
    is. *)
Theorem word_count_of_accepted (cfg : reg_config) (register : ModbusRegister) :
  _parse_register cfg = Some register ->
  (cfg.(cfg_objectsCount) = None ->
   spec_word_count register.(data_type) = Some register.(count))
  /\ (forall n : Z, cfg.(cfg_objectsCount) = Some n -> register.(count) = n).
Proof.
  unfold _parse_register.
  pose proof (type_mapping_width (default "16uint"%string cfg.(cfg_type))) as Hwidth.
  destruct (dict_get TYPE_MAPPING _ _) as [mapped_type default_count].
  cbn [fst snd] in Hwidth.
  destruct cfg.(cfg_tag) as [t|]; [|discriminate].
  destruct cfg.(cfg_address) as [a|]; [|discriminate].
  destruct cfg.(cfg_functionCode) as [fc|]; [|discriminate].
  cbn [item py_bind].
  destruct (PyFloat.of_val _) as [d|]; [|discriminate].
  cbn [py_bind].
  destruct (PyFloat.of_val _) as [m|]; [|discriminate].
  cbn [py_bind try_or_None]. intros [= <-]. cbn [count data_type]. split.
  - intros ->. exact Hwidth.
  - intros n ->. reflexivity.
Qed.

Lemma word_count_of_accepted_witness :
  spec_word_count "float32" = Some 2.
Proof.
  exact (proj1 (word_count_of_accepted
                  {| cfg_type := Some "32float"%string; cfg_tag := Some "flow"%string;
                     cfg_address := Some 40; cfg_functionCode := Some 3;
                     cfg_objectsCount := None; cfg_divider := Some (PInt 10);
                     cfg_multiplier := None |}
                  _ eq_refl) eq_refl).
Defined.

(** C9 as stated fails: a [32uint] entry with [objectsCount] 1 is
    accepted with one word for a 32-bit type, and the decoder then decodes
    one word for it. *)
Lemma mismatched_count_accepted :
  exists register : ModbusRegister,
    _parse_register
      {| cfg_type := Some "32uint"%string; cfg_tag := Some "energy"%string;
         cfg_address := Some 40; cfg_functionCode := Some 3;
         cfg_objectsCount := Some 1; cfg_divider := None; cfg_multiplier := None |}
    = Some register
    /\ register.(data_type) = "uint32"%string
    /\ register.(count) = 1
    /\ spec_word_count register.(data_type) <> Some register.(count)
    /\ _decode_registers [7] register (a_device "BIG" "BIG" [register]) = Some (PInt 7).
Proof.
  eexists. split; [vm_compute; reflexivity|].
  repeat split; try reflexivity. vm_compute. discriminate.
Qed.

End Configuration.

(** * Further properties of the code *)

(** ** More on register decoding *)

Section MoreDecoding.
Import Config Poller.

Lemma pack_out_of_range (bo : Struct.endian) (n : nat) (x : Z) :
  ~ 0 <= x < 2 ^ (8 * Z.of_nat n) -> Struct.pack bo n x = Raise StructError.
Proof.
  intros Hout. unfold Struct.pack.
  destruct (0 <=? x) eqn:Hlo; [|reflexivity].
  destruct (x <? 2 ^ (8 * Z.of_nat n)) eqn:Hhi; [|reflexivity].
  apply Z.leb_le in Hlo. apply Z.ltb_lt in Hhi. lia.
Qed.

Lemma twos_complement_range (bits u : Z) :
  0 < bits -> 0 <= u < 2 ^ bits ->
  - 2 ^ (bits - 1) <= twos_complement bits u < 2 ^ (bits - 1).
Proof.
  intros Hbits Hu. unfold twos_complement.
  assert (Hpow : 2 ^ bits = 2 * 2 ^ (bits - 1)).
  { replace bits with (Z.succ (bits - 1)) at 1 by lia. apply Z.pow_succ_r. lia. }
  destruct (u <? 2 ^ (bits - 1)) eqn:Hlt.
  - apply Z.ltb_lt in Hlt. lia.
  - apply Z.ltb_ge in Hlt. lia.
Qed.

(** X1. A word count other than 1, 2 and 4 gives no value, whatever the
    words, the type and the device are. *)
Theorem unsupported_count (registers : list Z) (register : ModbusRegister)
    (device : ModbusDevice) :
  register.(count) <> 1 -> register.(count) <> 2 -> register.(count) <> 4 ->
  _decode_registers registers register device = None.
Proof.
  intros H1 H2 H4. unfold _decode_registers.
  apply Z.eqb_neq in H1, H2, H4. rewrite H1, H2, H4.
  now destruct (Z.of_nat (length registers) <? register.(count)).
Qed.

Lemma unsupported_count_witness :
  _decode_registers [1; 2; 3] (a_register "total" 3 3 "uint32" 1 1) (a_device "BIG" "BIG" [])
  = None.
Proof. apply unsupported_count; simpl; lia. Defined.

(** X2. A one-word register decodes the same on every device: neither the
    word order nor the byte order of the device plays a part. *)
Theorem one_word_ignores_orders (registers : list Z) (register : ModbusRegister)
    (device device' : ModbusDevice) :
  register.(count) = 1 ->
  _decode_registers registers register device
  = _decode_registers registers register device'.
Proof.
  intros Hcount. unfold _decode_registers. rewrite Hcount.
  generalize (endian_of device.(byte_order)) (endian_of device'.(byte_order)).
  intros bo bo'. cbn [Z.eqb Pos.eqb].
  destruct (Z.of_nat (length registers) <? 1); [reflexivity|].
  f_equal. f_equal.
  destruct (index registers 0) as [r0|]; [simpl|reflexivity].
  destruct (String.eqb register.(data_type) "uint16"); [reflexivity|].
  destruct (String.eqb register.(data_type) "int16"); [|reflexivity].
  apply signed_roundtrip.
Qed.

Lemma one_word_ignores_orders_witness :
  _decode_registers [40000] (a_register "level" 3 1 "int16" 1 10) (a_device "BIG" "BIG" [])
  = _decode_registers [40000] (a_register "level" 3 1 "int16" 1 10)
      (a_device "LITTLE" "LITTLE" []).
Proof. apply one_word_ignores_orders. reflexivity. Defined.

(** X3. An [int16] register decodes a 16-bit word to the scaling of its
    two's complement value, which lies between -32768 and 32767. *)
Theorem int16_twos_complement (w : Z) (rest : list Z) (register : ModbusRegister)
    (device : ModbusDevice) :
  register.(count) = 1 ->
  register.(data_type) = "int16"%string ->
  0 <= w < 2 ^ 16 ->
  _decode_registers (w :: rest) register device
  = try_or_None (
      let! scaled := apply_scaling register (PInt (twos_complement 16 w)) in
      Ret (Some scaled))
  /\ - 32768 <= twos_complement 16 w <= 32767.
Proof.
  intros Hcount Htype Hw. split.
  - unfold _decode_registers. rewrite Hcount, Htype. cbn [length].
    replace (Z.of_nat (S (length rest)) <? 1) with false
      by (symmetry; apply Z.ltb_ge; lia).
    cbn -[apply_scaling Struct.pack Struct.unpack_signed twos_complement].
    rewrite (signed_of_packed _ 2 w) by exact Hw. reflexivity.
  - pose proof (twos_complement_range 16 w ltac:(lia) Hw) as Hr.
    change (2 ^ (16 - 1)) with 32768 in Hr. lia.
Qed.

Lemma int16_twos_complement_witness :
  _decode_registers [65535] (a_register "offset" 3 1 "int16" 1 1) (a_device "BIG" "BIG" [])
  = Some (PInt (-1)).
Proof.
  rewrite (proj1 (int16_twos_complement 65535 [] (a_register "offset" 3 1 "int16" 1 1)
                    (a_device "BIG" "BIG" []) eq_refl eq_refl ltac:(lia))).
  reflexivity.
Defined.

(** X4. An [int32] register decodes two 16-bit words to the scaling of the
    two's complement value of the 32 bits assembled by word order. *)
Theorem int32_twos_complement (w0 w1 : Z) (rest : list Z) (register : ModbusRegister)
    (device : ModbusDevice) :
  register.(count) = 2 ->
  register.(data_type) = "int32"%string ->
  0 <= w0 < 2 ^ 16 ->
  0 <= w1 < 2 ^ 16 ->
  _decode_registers (w0 :: w1 :: rest) register device
  = try_or_None (
      let! scaled :=
        apply_scaling register
          (PInt (twos_complement 32 (spec_assemble2 device.(word_order) w0 w1))) in
      Ret (Some scaled)).
Proof.
  intros Hcount Htype Hw0 Hw1.
  unfold _decode_registers, spec_assemble2. rewrite Hcount, Htype. cbn [length].
  replace (Z.of_nat (S (S (length rest))) <? 2) with false
    by (symmetry; apply Z.ltb_ge; lia).
  cbn -[Z.shiftl Z.lor Z.pow apply_scaling Struct.pack Struct.unpack_signed
        twos_complement].
  destruct (String.eqb device.(word_order) "BIG");
    rewrite lor_shiftl_add by lia;
    rewrite (signed_of_packed _ 4) by (cbn [Z.of_nat Z.mul Pos.of_succ_nat Pos.succ Pos.mul]; nia);
    reflexivity.
Qed.

Lemma int32_twos_complement_witness :
  _decode_registers [65535; 65534] (a_register "net" 3 2 "int32" 1 1)
    (a_device "BIG" "BIG" [])
  = Some (PInt (-2)).
Proof.
  rewrite (int32_twos_complement 65535 65534 [] (a_register "net" 3 2 "int32" 1 1)
             (a_device "BIG" "BIG" []) eq_refl eq_refl ltac:(lia) ltac:(lia)).
  reflexivity.
Defined.

(** Four 16-bit words or-ed at 48, 32, 16 and 0 bits add up. *)
Lemma lor4_words (w0 w1 w2 w3 : Z) :
  0 <= w1 < 2 ^ 16 -> 0 <= w2 < 2 ^ 16 -> 0 <= w3 < 2 ^ 16 ->
  Z.lor (Z.lor (Z.lor (Z.shiftl w0 48) (Z.shiftl w1 32)) (Z.shiftl w2 16)) w3
  = words4 w0 w1 w2 w3.
Proof.
  intros H1 H2 H3.
  replace (Z.shiftl w0 48) with (Z.shiftl (Z.shiftl w0 16) 32)
    by (now rewrite Z.shiftl_shiftl by lia).
  rewrite <- Z.shiftl_lor, (lor_shiftl_add w0 w1 16) by lia.
  replace (Z.shiftl (w0 * 2 ^ 16 + w1) 32)
    with (Z.shiftl (Z.shiftl (w0 * 2 ^ 16 + w1) 16) 16)
    by (now rewrite Z.shiftl_shiftl by lia).
  rewrite <- Z.shiftl_lor, (lor_shiftl_add (w0 * 2 ^ 16 + w1) w2 16) by lia.
  rewrite lor_shiftl_add by lia.
  unfold words4. lia.
Qed.

Lemma words4_range (w0 w1 w2 w3 : Z) :
  0 <= w0 < 2 ^ 16 -> 0 <= w1 < 2 ^ 16 -> 0 <= w2 < 2 ^ 16 -> 0 <= w3 < 2 ^ 16 ->
  0 <= words4 w0 w1 w2 w3 < 2 ^ 64.
Proof. intros H0 H1 H2 H3. unfold words4. lia. Qed.

(** X5. Four-word values: a [uint64] register decodes the words
    [w0; w1; w2; w3] to the scaling of the number in which, under Big
    word order, [w0] is the most significant word and [w3] the least, and
    under any other word order the four positions are reversed; the value
    is below [2 ^ 64]; and for every 4-word type, decoding under a word
    order other than Big is decoding the reversed words under Big. *)
Theorem four_word_assembly (w0 w1 w2 w3 : Z) (rest : list Z) (register : ModbusRegister)
    (device : ModbusDevice) :
  register.(count) = 4 ->
  0 <= w0 < 2 ^ 16 -> 0 <= w1 < 2 ^ 16 -> 0 <= w2 < 2 ^ 16 -> 0 <= w3 < 2 ^ 16 ->
  (register.(data_type) = "uint64"%string ->
   _decode_registers (w0 :: w1 :: w2 :: w3 :: rest) register device
   = try_or_None (
       let! scaled :=
         apply_scaling register
           (PInt (if String.eqb device.(word_order) "BIG" then words4 w0 w1 w2 w3
                  else words4 w3 w2 w1 w0)) in
       Ret (Some scaled)))
  /\ 0 <= words4 w0 w1 w2 w3 < 2 ^ 64
  /\ (forall device' : ModbusDevice,
        device.(word_order) <> "BIG"%string ->
        device'.(word_order) = "BIG"%string ->
        device'.(byte_order) = device.(byte_order) ->
        _decode_registers (w0 :: w1 :: w2 :: w3 :: rest) register device
        = _decode_registers (w3 :: w2 :: w1 :: w0 :: rest) register device').
Proof.
  intros Hcount H0 H1 H2 H3. split; [|split].
  - intros Htype. unfold _decode_registers. rewrite Hcount, Htype. cbn [length].
    replace (Z.of_nat (S (S (S (S (length rest))))) <? 4) with false
      by (symmetry; apply Z.ltb_ge; lia).
    cbn -[Z.shiftl Z.lor Z.pow apply_scaling words4].
    destruct (String.eqb device.(word_order) "BIG");
      rewrite lor4_words by lia; reflexivity.
  - now apply words4_range.
  - intros device' Hlittle Hbig Hbo. unfold _decode_registers.
    rewrite Hcount, Hbig, Hbo. cbn [length].
    apply String.eqb_neq in Hlittle. rewrite Hlittle. reflexivity.
Qed.

Lemma four_word_assembly_witness :
  _decode_registers [0; 0; 1; 2] (a_register "energy" 3 4 "uint64" 1 1)
    (a_device "BIG" "BIG" [])
  = Some (PInt 65538)
  /\ _decode_registers [0; 0; 1; 2] (a_register "energy" 3 4 "uint64" 1 1)
       (a_device "BIG" "LITTLE" [])
     = Some (PInt 562954248388608).
Proof.
  split.
  - rewrite (proj1 (four_word_assembly 0 0 1 2 [] (a_register "energy" 3 4 "uint64" 1 1)
               (a_device "BIG" "BIG" []) eq_refl ltac:(lia) ltac:(lia) ltac:(lia)
               ltac:(lia)) eq_refl).
    reflexivity.
  - rewrite (proj1 (four_word_assembly 0 0 1 2 [] (a_register "energy" 3 4 "uint64" 1 1)
               (a_device "BIG" "LITTLE" []) eq_refl ltac:(lia) ltac:(lia) ltac:(lia)
               ltac:(lia)) eq_refl).
    reflexivity.
Defined.

(** X6. An [int64] register decodes four 16-bit words to the scaling of
    the two's complement value of the 64 bits assembled by word order. *)
Theorem int64_twos_complement (w0 w1 w2 w3 : Z) (rest : list Z)
    (register : ModbusRegister) (device : ModbusDevice) :
  register.(count) = 4 ->
  register.(data_type) = "int64"%string ->
  0 <= w0 < 2 ^ 16 -> 0 <= w1 < 2 ^ 16 -> 0 <= w2 < 2 ^ 16 -> 0 <= w3 < 2 ^ 16 ->
  _decode_registers (w0 :: w1 :: w2 :: w3 :: rest) register device
  = try_or_None (
      let! scaled :=
        apply_scaling register
          (PInt (twos_complement 64
                   (if String.eqb device.(word_order) "BIG" then words4 w0 w1 w2 w3
                    else words4 w3 w2 w1 w0))) in
      Ret (Some scaled)).
Proof.
  intros Hcount Htype H0 H1 H2 H3.
  unfold _decode_registers. rewrite Hcount, Htype. cbn [length].
  replace (Z.of_nat (S (S (S (S (length rest))))) <? 4) with false
    by (symmetry; apply Z.ltb_ge; lia).
  cbn -[Z.shiftl Z.lor Z.pow apply_scaling Struct.pack Struct.unpack_signed
        twos_complement words4].
  destruct (String.eqb device.(word_order) "BIG");
    rewrite lor4_words by lia;
    rewrite (signed_of_packed _ 8) by (now apply words4_range);
    reflexivity.
Qed.

Lemma int64_twos_complement_witness :
  _decode_registers [65535; 65535; 65535; 65533] (a_register "net" 3 4 "int64" 1 1)
    (a_device "BIG" "BIG" [])
  = Some (PInt (-3)).
Proof.
  rewrite (int64_twos_complement 65535 65535 65535 65533 []
             (a_register "net" 3 4 "int64" 1 1) (a_device "BIG" "BIG" [])
             eq_refl eq_refl ltac:(lia) ltac:(lia) ltac:(lia) ltac:(lia)).
  reflexivity.
Defined.

(** X7. A word outside 0..65535 gives no value for an [int16] register,
    since it does not pack, and goes through unchanged for a [uint16]
    register without scaling, which packs nothing. *)
Theorem word_out_of_range (w : Z) (rest : list Z) (register : ModbusRegister)
    (device : ModbusDevice) :
  register.(count) = 1 ->
  ~ 0 <= w < 2 ^ 16 ->
  (register.(data_type) = "int16"%string ->
   _decode_registers (w :: rest) register device = None)
  /\ (register.(data_type) = "uint16"%string ->
      needs_scaling register = false ->
      _decode_registers (w :: rest) register device = Some (PInt w)).
Proof.
  intros Hcount Hout.
  assert (Hguard : (Z.of_nat (length (w :: rest)) <? 1) = false)
    by (apply Z.ltb_ge; cbn [length]; lia).
  split.
  - intros Htype. unfold _decode_registers. rewrite Hcount, Htype, Hguard.
    cbn -[apply_scaling Struct.pack Struct.unpack_signed].
    now rewrite pack_out_of_range by exact Hout.
  - intros Htype Hscale. unfold _decode_registers. rewrite Hcount, Htype, Hguard.
    cbn -[apply_scaling]. unfold apply_scaling. now rewrite Hscale.
Qed.

Lemma word_out_of_range_witness :
  _decode_registers [70000] (a_register "offset" 3 1 "int16" 1 1) (a_device "BIG" "BIG" [])
  = None
  /\ _decode_registers [70000] (a_register "speed" 3 1 "uint16" 1 1)
       (a_device "BIG" "BIG" [])
     = Some (PInt 70000).
Proof.
  split.
  - apply (proj1 (word_out_of_range 70000 [] (a_register "offset" 3 1 "int16" 1 1)
                    (a_device "BIG" "BIG" []) eq_refl ltac:(lia)) eq_refl).
  - apply (proj2 (word_out_of_range 70000 [] (a_register "speed" 3 1 "uint16" 1 1)
                    (a_device "BIG" "BIG" []) eq_refl ltac:(lia)) eq_refl eq_refl).
Defined.

Lemma index_take {A : Type} (l : list A) (n i : nat) :
  (i < n)%nat -> index (take n l) i = index l i.
Proof. intros Hi. unfold index. now rewrite lookup_take_lt. Qed.

(** X8. The decoder reads the first [count] words only: words received
    beyond them do not change the result. *)
Theorem only_count_words_read (registers : list Z) (register : ModbusRegister)
    (device : ModbusDevice) :
  register.(count) <= Z.of_nat (length registers) ->
  _decode_registers registers register device
  = _decode_registers (take (Z.to_nat register.(count)) registers) register device.
Proof.
  intros Hlen. unfold _decode_registers.
  replace (Z.of_nat (length registers) <? register.(count)) with false
    by (symmetry; apply Z.ltb_ge; lia).
  replace (Z.of_nat (length (take (Z.to_nat register.(count)) registers))
             <? register.(count)) with false
    by (symmetry; apply Z.ltb_ge; rewrite length_take; lia).
  destruct (register.(count) =? 1) eqn:E1.
  { apply Z.eqb_eq in E1. rewrite E1. now rewrite !index_take by (simpl; lia). }
  destruct (register.(count) =? 2) eqn:E2.
  { apply Z.eqb_eq in E2. rewrite E2. now rewrite !index_take by (simpl; lia). }
  destruct (register.(count) =? 4) eqn:E4; [|reflexivity].
  apply Z.eqb_eq in E4. rewrite E4. now rewrite !index_take by (simpl; lia).
Qed.

Lemma only_count_words_read_witness :
  _decode_registers [1; 0; 9; 9] (a_register "energy" 3 2 "uint32" 1 1)
    (a_device "BIG" "BIG" [])
  = _decode_registers [1; 0] (a_register "energy" 3 2 "uint32" 1 1)
      (a_device "BIG" "BIG" []).
Proof.
  apply (only_count_words_read [1; 0; 9; 9] (a_register "energy" 3 2 "uint32" 1 1)
           (a_device "BIG" "BIG" [])).
  simpl. lia.
Defined.

End MoreDecoding.


(** ** More on reads, clients and the poll cycle *)

Section MorePolling.
Import Config Poller.

(** X9. A read gives no value when the function code is none of 1 to 4
    (the client is then not called), when the response is an error
    response, and when the client raises. *)
Theorem read_failures_absorbed (env : bus) (i : nat) (client : ModbusSerialClient)
    (device : ModbusDevice) (register : ModbusRegister) :
  (register.(function_code) <> 1 -> register.(function_code) <> 2 ->
   register.(function_code) <> 3 -> register.(function_code) <> 4 ->
   read_register env i client device register = None)
  /\ (env.(transact) i client (request_of device register) = RespError ->
      read_register env i client device register = None)
  /\ (forall e : exn,
        env.(transact) i client (request_of device register) = RespRaise e ->
        read_register env i client device register = None).
Proof.
  unfold read_register. split; [|split].
  - intros H1 H2 H3 H4. apply Z.eqb_neq in H1, H2, H3, H4.
    now rewrite H1, H2, H3, H4.
  - intros ->. now destruct (_ || _).
  - intros e ->. now destruct (_ || _).
Qed.

Lemma read_failures_absorbed_witness :
  read_register (a_bus ConnectOk plant) 0 (client_for (a_device "BIG" "BIG" []))
    (a_device "BIG" "BIG" []) (a_register "temp" 5 1 "uint16" 1 1)
  = None
  /\ read_register (a_bus ConnectOk silent) 0 (client_for (a_device "BIG" "BIG" []))
       (a_device "BIG" "BIG" []) (a_register "temp" 3 1 "uint16" 1 1)
     = None.
Proof.
  split.
  - apply (proj1 (read_failures_absorbed (a_bus ConnectOk plant) 0 _
                    (a_device "BIG" "BIG" []) (a_register "temp" 5 1 "uint16" 1 1)));
      simpl; lia.
  - apply (proj1 (proj2 (read_failures_absorbed (a_bus ConnectOk silent) 0 _
                    (a_device "BIG" "BIG" []) (a_register "temp" 3 1 "uint16" 1 1)))).
    reflexivity.
Defined.

Lemma key_of_shared (d d' : ModbusDevice) :
  d'.(port) = d.(port) -> d'.(baudrate) = d.(baudrate) -> d'.(parity) = d.(parity) ->
  key_of d' = key_of d.
Proof. unfold key_of. now intros -> -> ->. Qed.

Lemma get_client_stores (self : ModbusPoller) (device : ModbusDevice) (env : bus)
    (client : ModbusSerialClient) :
  acquired self device env = Ret (Some client) ->
  (after_get_client self device env).(clients) !! key_of device = Some client.
Proof.
  unfold acquired, after_get_client, get_client.
  destruct (self.(clients) !! key_of device) as [c|] eqn:Hkey.
  - simpl. now intros [= <-].
  - destruct (env.(connect) _); simpl; try discriminate.
    intros [= <-]. apply lookup_insert_eq.
Qed.

(** X10. Devices on the same port, baud rate and parity share one client:
    once [get_client] has given a client for a device, it gives that same
    client for every device with the same three settings, whatever the
    other settings of that device are and whatever the port would now
    answer, and it changes nothing in the poller. *)
Theorem client_shared (self : ModbusPoller) (d d' : ModbusDevice) (env env' : bus)
    (client : ModbusSerialClient) :
  acquired self d env = Ret (Some client) ->
  d'.(port) = d.(port) -> d'.(baudrate) = d.(baudrate) -> d'.(parity) = d.(parity) ->
  get_client (after_get_client self d env) d' env'
  = (Ret (Some client), after_get_client self d env,
     [EvLock CreateLock; EvUnlock CreateLock]).
Proof.
  intros Hacq Hport Hbaud Hparity.
  pose proof (get_client_stores self d env client Hacq) as Hstored.
  rewrite <- (key_of_shared d d' Hport Hbaud Hparity) in Hstored.
  unfold get_client at 1. now rewrite Hstored.
Qed.

Lemma client_shared_witness :
  acquired
    (after_get_client fresh_poller (a_device "BIG" "BIG" []) (a_bus ConnectOk plant))
    two_register_device (a_bus ConnectFault silent)
  = Ret (Some (client_for (a_device "BIG" "BIG" []))).
Proof.
  unfold acquired.
  rewrite (client_shared fresh_poller (a_device "BIG" "BIG" []) two_register_device
             (a_bus ConnectOk plant) (a_bus ConnectFault silent)
             (client_for (a_device "BIG" "BIG" [])) eq_refl eq_refl eq_refl eq_refl).
  reflexivity.
Defined.

(** X11. A connection that fails is not cached: when [get_client] gives
    no client the poller is unchanged, and the next call opens the port
    again, giving the client of the device if the port then opens. *)
Theorem failed_connect_retried (self : ModbusPoller) (device : ModbusDevice)
    (env env' : bus) :
  acquired self device env = Ret None ->
  after_get_client self device env = self
  /\ (env'.(connect) (client_for device) = ConnectOk ->
      acquired (after_get_client self device env) device env'
      = Ret (Some (client_for device))).
Proof.
  unfold acquired, after_get_client, get_client. fold (client_for device).
  destruct (self.(clients) !! key_of device) as [c|] eqn:Hkey; [discriminate|].
  destruct (env.(connect) (client_for device)); simpl; try discriminate.
  intros _. split; [reflexivity|]. intros Hok. now rewrite Hkey, Hok.
Qed.

Lemma failed_connect_retried_witness :
  acquired
    (after_get_client fresh_poller two_register_device (a_bus ConnectRefused silent))
    two_register_device (a_bus ConnectOk plant)
  = Ret (Some (client_for two_register_device)).
Proof.
  apply (proj2 (failed_connect_retried fresh_poller two_register_device
                  (a_bus ConnectRefused silent) (a_bus ConnectOk plant) eq_refl)).
  reflexivity.
Defined.

(** X12. [get_client] never drops and never replaces a cached client, and
    never takes a key out of the lock table, whatever the poller is, one
    whose clients were closed included. (The lock table is kept by its
    keys: nothing is said of the lock object under a key.) *)
Theorem get_client_keeps_entries (self : ModbusPoller) (device : ModbusDevice) (env : bus) :
  (forall (key : string) (client : ModbusSerialClient),
     self.(clients) !! key = Some client ->
     (after_get_client self device env).(clients) !! key = Some client)
  /\ self.(locks) ⊆ (after_get_client self device env).(locks).
Proof.
  unfold after_get_client, get_client.
  destruct (self.(clients) !! key_of device) as [c|] eqn:Hdev; [now split|].
  destruct (env.(connect) _); simpl; [|now split|now split].
  split; [|set_solver].
  intros key client Hkey.
  rewrite lookup_insert_ne; [exact Hkey|]. intros <-. congruence.
Qed.

Lemma get_client_keeps_entries_witness :
  (after_get_client
     (after_get_client fresh_poller two_register_device (a_bus ConnectOk plant))
     {| name := "meter"; device_type := "meter"; unit_id := 2; port := "/dev/ttyUSB1";
        baudrate := 19200; parity := "E"; stopbits := 1; bytesize := 8;
        timeout := S754_zero false; poll_period := 500; byte_order := "BIG";
        word_order := "BIG"; registers := [] |}
     (a_bus ConnectOk plant)).(clients) !! key_of two_register_device
  = Some (client_for two_register_device).
Proof.
  apply get_client_keeps_entries.
  apply get_client_stores. reflexivity.
Defined.

Lemma get_client_cached (self : ModbusPoller) (device : ModbusDevice) (env : bus)
    (client : ModbusSerialClient) :
  self.(clients) !! key_of device = Some client ->
  acquired self device env = Ret (Some client).
Proof. intros Hkey. unfold acquired, get_client. now rewrite Hkey. Qed.

(** X13. Once the client of a port is cached, a poll never reports
    ['disconnected'] and never raises: whatever the port answers, the
    reading is ['connected'] or ['error']. *)
Theorem cached_never_disconnected (self : ModbusPoller) (device : ModbusDevice)
    (env : bus) (client : ModbusSerialClient) :
  consistent self ->
  self.(clients) !! key_of device = Some client ->
  exists rd : Reading,
    polled self device env = Ret rd
    /\ (rd.(rd_status) = "connected"%string \/ rd.(rd_status) = "error"%string).
Proof.
  intros Hcons Hkey.
  pose proof (poll_device_cases self device env Hcons) as Hcases.
  rewrite (get_client_cached self device env client Hkey) in Hcases.
  destruct Hcases as (data & sc & Hpoll & _).
  eexists. split; [exact Hpoll|]. cbn [rd_status].
  destruct (0 <? sc); [now left|now right].
Qed.

Lemma cached_never_disconnected_witness :
  exists rd : Reading,
    polled (after_get_client fresh_poller two_register_device (a_bus ConnectOk plant))
      two_register_device (a_bus ConnectRefused silent)
    = Ret rd
    /\ (rd.(rd_status) = "connected"%string \/ rd.(rd_status) = "error"%string).
Proof.
  apply (cached_never_disconnected _ two_register_device (a_bus ConnectRefused silent)
           (client_for two_register_device)).
  - apply get_client_consistent, fresh_consistent.
  - apply get_client_stores. reflexivity.
Defined.

(** The data of a reading is what the sweep leaves. *)
Lemma poll_device_data (self : ModbusPoller) (device : ModbusDevice) (env : bus)
    (rd : Reading) :
  consistent self ->
  polled self device env = Ret rd ->
  match acquired self device env with
  | Ret (Some client) =>
      rd.(rd_data) = fst (fst (sweep env client device 0 device.(registers) [] 0))
  | _ => rd.(rd_data) = []
  end.
Proof.
  intros Hcons.
  pose proof (get_client_lock self device env) as Hlock.
  unfold polled, poll_device, acquired in *.
  destruct (get_client self device env) as [[r self'] tr]. simpl in *.
  destruct r as [[client|]|e]; [|now intros [= <-]|discriminate].
  specialize (Hlock client Hcons eq_refl).
  rewrite bool_decide_eq_true_2 by exact Hlock.
  destruct (sweep env client device 0 device.(registers) [] 0) as [[data sc] t].
  now intros [= <-].
Qed.

Lemma dict_set_keys {V : Type} (d : dict V) (k : string) (v : V) :
  (dict_set d k v).*1 = if bool_decide (k ∈ d.*1) then d.*1 else d.*1 ++ [k].
Proof.
  induction d as [|[k' v'] d IH]; [reflexivity|]. cbn [dict_set].
  destruct (String.eqb_spec k' k) as [->|Hne].
  - cbn. rewrite bool_decide_eq_true_2; [reflexivity|set_solver].
  - cbn. rewrite IH.
    destruct (bool_decide (k ∈ d.*1)) eqn:Hin.
    + apply bool_decide_eq_true in Hin.
      rewrite bool_decide_eq_true_2; [reflexivity|set_solver].
    + apply bool_decide_eq_false in Hin.
      rewrite bool_decide_eq_false_2; [reflexivity|set_solver].
Qed.

Lemma dict_set_fresh {V : Type} (d : dict V) (k : string) (v : V) :
  k ∉ d.*1 -> dict_set d k v = d ++ [(k, v)].
Proof.
  induction d as [|[k' v'] d IH]; [reflexivity|]. cbn [dict_set]. intros Hk.
  destruct (String.eqb_spec k' k) as [->|Hne]; [set_solver|].
  cbn. rewrite IH; [reflexivity|set_solver].
Qed.

(** A sweep keeps the keys of the dictionary distinct and adds only tags
    of the registers it reads. *)
Lemma sweep_keys (env : bus) (client : ModbusSerialClient) (device : ModbusDevice)
    (regs : list ModbusRegister) :
  forall (i : nat) (data : dict pyval) (sc : Z),
    NoDup data.*1 ->
    NoDup (fst (fst (sweep env client device i regs data sc))).*1
    /\ forall k : string,
         k ∈ (fst (fst (sweep env client device i regs data sc))).*1 ->
         k ∈ data.*1 \/ exists register, register ∈ regs /\ register.(tag) = k.
Proof.
  induction regs as [|register rest IH]; intros i data sc Hnd.
  - cbn. split; [exact Hnd|]. now left.
  - cbn [sweep].
    destruct (read_register env i client device register) as [v|].
    + specialize (IH (S i) (dict_set data register.(tag) v) (sc + 1)).
      destruct (sweep env client device (S i) rest _ _) as [[d s] t].
      cbn [fst] in *.
      assert (Hnd' : NoDup (dict_set data register.(tag) v).*1).
      { rewrite dict_set_keys. case_bool_decide; [exact Hnd|].
        apply NoDup_app. split; [exact Hnd|].
        split; [set_solver|apply NoDup_singleton]. }
      destruct (IH Hnd') as [Hd Hk]. split; [exact Hd|].
      intros k Hin. destruct (Hk k Hin) as [Hold|(r & Hr & Ht)].
      * rewrite dict_set_keys in Hold. case_bool_decide; [now left|].
        apply elem_of_app in Hold as [Hold|Hnew]; [now left|].
        right. exists register. split; [set_solver|]. set_solver.
      * right. exists r. split; [set_solver|exact Ht].
    + specialize (IH (S i) data sc).
      destruct (sweep env client device (S i) rest _ _) as [[d s] t].
      cbn [fst] in *. destruct (IH Hnd) as [Hd Hk]. split; [exact Hd|].
      intros k Hin. destruct (Hk k Hin) as [Hold|(r & Hr & Ht)]; [now left|].
      right. exists r. split; [set_solver|exact Ht].
Qed.

(** X14. The values of a reading have distinct tags, each the tag of a
    register of the device, also when several registers of the device
    carry the same tag. *)
Theorem values_are_register_tags (self : ModbusPoller) (device : ModbusDevice)
    (env : bus) (rd : Reading) :
  consistent self ->
  polled self device env = Ret rd ->
  NoDup rd.(rd_data).*1
  /\ forall k : string,
       k ∈ rd.(rd_data).*1 ->
       exists register, register ∈ device.(registers) /\ register.(tag) = k.
Proof.
  intros Hcons Hpoll.
  pose proof (poll_device_data self device env rd Hcons Hpoll) as Hdata.
  destruct (acquired self device env) as [[client|]|e].
  - rewrite Hdata.
    destruct (sweep_keys env client device device.(registers) O [] 0) as [Hnd Hk];
      [apply NoDup_nil_2|].
    split; [exact Hnd|]. intros k Hin.
    destruct (Hk k Hin) as [Hold|Hreg]; [|exact Hreg]. set_solver.
  - rewrite Hdata. split; [apply NoDup_nil_2|]. set_solver.
  - rewrite Hdata. split; [apply NoDup_nil_2|]. set_solver.
Qed.

Lemma values_are_register_tags_witness :
  NoDup [("temp"%string, PInt 25); ("run"%string, PFloat PyFloat.one)].*1.
Proof.
  exact (proj1 (values_are_register_tags fresh_poller two_register_device
                  (a_bus ConnectOk plant) _ fresh_consistent eq_refl)).
Defined.

Lemma sweep_in_order (env : bus) (client : ModbusSerialClient) (device : ModbusDevice)
    (regs : list ModbusRegister) :
  forall (i : nat) (data : dict pyval) (sc : Z),
    NoDup (tag <$> regs) ->
    (forall register, register ∈ regs -> register.(tag) ∉ data.*1) ->
    fst (fst (sweep env client device i regs data sc))
    = data ++ successful_reads env client device i regs.
Proof.
  induction regs as [|register rest IH]; intros i data sc Hnd Hfresh.
  - cbn. now rewrite app_nil_r.
  - cbn [sweep successful_reads].
    apply NoDup_cons in Hnd as [Hhead Hnd].
    destruct (read_register env i client device register) as [v|].
    + specialize (IH (S i) (dict_set data register.(tag) v) (sc + 1) Hnd).
      destruct (sweep env client device (S i) rest _ _) as [[d s] t].
      cbn [fst] in *. rewrite IH.
      * rewrite dict_set_fresh by (apply Hfresh; set_solver).
        now rewrite <- app_assoc.
      * intros r Hr. rewrite dict_set_keys.
        rewrite bool_decide_eq_false_2 by (apply Hfresh; set_solver).
        intros Hin. apply elem_of_app in Hin as [Hin|Hin].
        -- apply (Hfresh r); [set_solver|exact Hin].
        -- apply Hhead. apply list_elem_of_fmap. exists r. split; [set_solver|exact Hr].
    + specialize (IH (S i) data sc Hnd).
      destruct (sweep env client device (S i) rest _ _) as [[d s] t].
      cbn [fst] in *. rewrite IH; [reflexivity|].
      intros r Hr. apply Hfresh. set_solver.
Qed.

(** X15. When the registers of a device have distinct tags, the values of
    a reading are the reads that gave a value, each under the tag of its
    register, in the order in which the registers are declared. *)
Theorem values_in_declaration_order (self : ModbusPoller) (device : ModbusDevice)
    (env : bus) (client : ModbusSerialClient) :
  consistent self ->
  acquired self device env = Ret (Some client) ->
  NoDup (tag <$> device.(registers)) ->
  exists rd : Reading,
    polled self device env = Ret rd
    /\ rd.(rd_data) = successful_reads env client device 0 device.(registers).
Proof.
  intros Hcons Hacq Hnd.
  pose proof (poll_device_cases self device env Hcons) as Hcases.
  rewrite Hacq in Hcases. destruct Hcases as (data & sc & Hpoll & _).
  eexists. split; [exact Hpoll|].
  pose proof (poll_device_data self device env _ Hcons Hpoll) as Hdata.
  rewrite Hacq in Hdata. rewrite Hdata.
  rewrite sweep_in_order; [reflexivity|exact Hnd|set_solver].
Qed.

Lemma values_in_declaration_order_witness :
  exists rd : Reading,
    polled fresh_poller two_register_device (a_bus ConnectOk plant) = Ret rd
    /\ rd.(rd_data) = [("temp"%string, PInt 25); ("run"%string, PFloat PyFloat.one)].
Proof.
  apply (values_in_declaration_order fresh_poller two_register_device
           (a_bus ConnectOk plant) (client_for two_register_device) fresh_consistent
           eq_refl).
  cbn. repeat constructor; set_solver.
Defined.

(** X16. [close_all] closes every cached client and forgets them all: the
    keys it closes are the cached keys, afterwards every device is
    connected anew as on a poller just made, and the locks stay. *)
Theorem close_all_forgets_clients (self : ModbusPoller) (device : ModbusDevice)
    (env : bus) :
  (forall key : string, key ∈ fst (close_all self) <-> is_Some (self.(clients) !! key))
  /\ acquired (snd (close_all self)) device env = acquired fresh_poller device env
  /\ (snd (close_all self)).(locks) = self.(locks)
  /\ consistent (snd (close_all self)).
Proof.
  unfold close_all. cbn [fst snd]. split; [|split; [|split]].
  - intros key. apply elem_of_dom.
  - unfold acquired, get_client. cbn [clients]. rewrite lookup_empty.
    now destruct (env.(connect) _).
  - reflexivity.
  - intros key [c Hc]. cbn in Hc. now rewrite lookup_empty in Hc.
Qed.

Lemma close_all_forgets_clients_witness :
  acquired
    (snd (close_all (after_get_client fresh_poller two_register_device
                       (a_bus ConnectOk plant))))
    two_register_device (a_bus ConnectRefused silent)
  = Ret None.
Proof.
  rewrite (proj1 (proj2 (close_all_forgets_clients
                           (after_get_client fresh_poller two_register_device
                              (a_bus ConnectOk plant))
                           two_register_device (a_bus ConnectRefused silent)))).
  reflexivity.
Defined.

End MorePolling.


(** ** More on configuration *)

Section MoreConfiguration.
Import Config Poller.

(** X17. A register entry is accepted exactly when it has a tag, an
    address and a function code and its divider and multiplier convert to
    floats; the type tag and the word count never make it fail. *)
Theorem parse_register_accepts (cfg : reg_config) :
  is_Some (_parse_register cfg)
  <-> is_Some cfg.(cfg_tag) /\ is_Some cfg.(cfg_address)
      /\ is_Some cfg.(cfg_functionCode)
      /\ (exists d, PyFloat.of_val (default (PFloat PyFloat.one) cfg.(cfg_divider)) = Ret d)
      /\ (exists m, PyFloat.of_val (default (PFloat PyFloat.one) cfg.(cfg_multiplier)) = Ret m).
Proof.
  unfold _parse_register.
  destruct (dict_get TYPE_MAPPING _ _) as [mapped_type default_count].
  destruct cfg.(cfg_tag) as [t|]; cbn [item py_bind try_or_None];
    [|split; [intros [? [=]]|intros ([? [=]] & _)]].
  destruct cfg.(cfg_address) as [a|]; cbn [item py_bind try_or_None];
    [|split; [intros [? [=]]|intros (_ & [? [=]] & _)]].
  destruct cfg.(cfg_functionCode) as [fc|]; cbn [item py_bind try_or_None];
    [|split; [intros [? [=]]|intros (_ & _ & [? [=]] & _)]].
  destruct (PyFloat.of_val (default (PFloat PyFloat.one) cfg.(cfg_divider))) as [d|e];
    cbn [py_bind try_or_None];
    [|split; [intros [? [=]]|intros (_ & _ & _ & [? [=]] & _)]].
  destruct (PyFloat.of_val (default (PFloat PyFloat.one) cfg.(cfg_multiplier))) as [m|e];
    cbn [py_bind try_or_None];
    [|split; [intros [? [=]]|intros (_ & _ & _ & _ & [? [=]])]].
  split; [|intros _; eexists; reflexivity].
  intros _. repeat split; eauto.
Qed.

(** X18. The value type of an accepted register is one of the eight types
    the decoder knows; a type tag that is not in [TYPE_MAPPING] is read as
    [uint16], with one word unless a word count is given. *)
Theorem accepted_type_is_known (cfg : reg_config) (register : ModbusRegister) :
  _parse_register cfg = Some register ->
  register.(data_type) ∈ known_types
  /\ (default "16uint"%string cfg.(cfg_type) ∉ TYPE_MAPPING.*1 ->
      register.(data_type) = "uint16"%string
      /\ (cfg.(cfg_objectsCount) = None -> register.(count) = 1)).
Proof.
  unfold _parse_register.
  assert (Hmap : forall s : string,
    fst (dict_get TYPE_MAPPING s ("uint16"%string, 1)) ∈ known_types
    /\ (s ∉ TYPE_MAPPING.*1 ->
        dict_get TYPE_MAPPING s ("uint16"%string, 1) = ("uint16"%string, 1))).
  { intros s. unfold TYPE_MAPPING, known_types. cbn [dict_get fmap list_fmap fst].
    repeat (match goal with
            | |- context [String.eqb ?a s] =>
                destruct (String.eqb_spec a s) as [<-|]
            end; [split; [cbn; set_solver|set_solver]|]).
    split; [cbn; set_solver|reflexivity]. }
  destruct (Hmap (default "16uint"%string cfg.(cfg_type))) as [Hknown Hunknown].
  destruct (dict_get TYPE_MAPPING _ _) as [mapped_type default_count].
  cbn [fst] in Hknown.
  destruct cfg.(cfg_tag) as [t|]; [|discriminate].
  destruct cfg.(cfg_address) as [a|]; [|discriminate].
  destruct cfg.(cfg_functionCode) as [fc|]; [|discriminate].
  cbn [item py_bind].
  destruct (PyFloat.of_val _) as [d|]; [|discriminate]. cbn [py_bind].
  destruct (PyFloat.of_val _) as [m|]; [|discriminate].
  cbn [py_bind try_or_None]. intros [= <-]. cbn [count data_type].
  split; [exact Hknown|]. intros Hnot.
  specialize (Hunknown Hnot). injection Hunknown as -> ->.
  split; [reflexivity|]. now intros ->.
Qed.

Lemma accepted_type_is_known_witness :
  "uint16"%string ∈ known_types.
Proof.
  exact (proj1 (accepted_type_is_known (a_reg_config (Some "valve"%string) "bits" 3)
                  _ eq_refl)).
Defined.

(** X19. A register entry without divider and multiplier, or with the
    integer 1 for either, gives a register that needs no scaling: every
    value goes through [apply_scaling] unchanged, in value and in type. *)
Theorem unscaled_by_default (cfg : reg_config) (register : ModbusRegister) :
  _parse_register cfg = Some register ->
  cfg.(cfg_divider) = None \/ cfg.(cfg_divider) = Some (PInt 1) ->
  cfg.(cfg_multiplier) = None \/ cfg.(cfg_multiplier) = Some (PInt 1) ->
  needs_scaling register = false
  /\ forall value : pyval, apply_scaling register value = Ret value.
Proof.
  unfold _parse_register.
  destruct (dict_get TYPE_MAPPING _ _) as [mapped_type default_count].
  destruct cfg.(cfg_tag) as [t|]; [|discriminate].
  destruct cfg.(cfg_address) as [a|]; [|discriminate].
  destruct cfg.(cfg_functionCode) as [fc|]; [|discriminate].
  cbn [item py_bind].
  intros Hparse Hd Hm.
  assert (Hscale : needs_scaling register = false).
  { destruct Hd as [Hd|Hd], Hm as [Hm|Hm]; rewrite Hd, Hm in Hparse;
      injection Hparse as <-; reflexivity. }
  split; [exact Hscale|]. intros value. unfold apply_scaling. now rewrite Hscale.
Qed.

Lemma unscaled_by_default_witness :
  apply_scaling
    {| tag := "valve"; address := 0; function_code := 3; count := 2;
       data_type := "float32"; divider := PyFloat.one; multiplier := PyFloat.one |}
    (PInt 7)
  = Ret (PInt 7).
Proof.
  exact (proj2 (unscaled_by_default (a_reg_config (Some "valve"%string) "32float" 3)
                  _ eq_refl (or_introl eq_refl) (or_introl eq_refl)) (PInt 7)).
Defined.

(** X20. [_parse_parity] always gives one of [N], [E] and [O], a spelling
    it does not know giving [N], and leaves its own results unchanged. *)
Theorem parse_parity_range (parity : string) :
  _parse_parity parity ∈ ["N"; "E"; "O"]%string
  /\ (parity ∉ parity_map.*1 -> _parse_parity parity = "N"%string)
  /\ _parse_parity (_parse_parity parity) = _parse_parity parity.
Proof.
  unfold _parse_parity, parity_map. cbn [dict_get fmap list_fmap fst].
  repeat (match goal with
          | |- context [String.eqb ?a parity] =>
              destruct (String.eqb_spec a parity) as [<-|]
          end; [split; [cbn; set_solver|split; [set_solver|reflexivity]]|]).
  split; [set_solver|]. split; reflexivity.
Qed.

Lemma parse_register_accepts_witness :
  is_Some (_parse_register (a_reg_config (Some "valve"%string) "bits" 3)).
Proof.
  apply (proj2 (parse_register_accepts (a_reg_config (Some "valve"%string) "bits" 3))).
  cbn. repeat split; eauto.
Defined.

Lemma parse_parity_letter (parity : string) :
  _parse_parity parity ∈ ["N"; "E"; "O"]%string.
Proof.
  unfold _parse_parity, parity_map. cbn [dict_get].
  repeat (match goal with
          | |- context [String.eqb ?a parity] => destruct (String.eqb a parity)
          end; [set_solver|]).
  set_solver.
Qed.

(** What the body of the loop gives for one slave. *)
Lemma parse_slave_spec (slave : slave_config) (d : option ModbusDevice) :
  parse_slave slave = Ret d ->
  match d with
  | None => slave_registers slave = []
  | Some device =>
      device.(registers) = slave_registers slave
      /\ has_registers (slave_registers slave) = true
      /\ device.(parity) ∈ ["N"; "E"; "O"]%string
      /\ is_Some slave.(sl_port) /\ is_Some slave.(sl_unitId)
  end.
Proof.
  unfold parse_slave.
  destruct (slave_registers slave) as [|r regs] eqn:Hregs; [now intros [= <-]|].
  destruct slave.(sl_unitId) as [uid|]; [|discriminate].
  destruct slave.(sl_port) as [p|]; [|discriminate].
  cbn [item py_bind].
  destruct (PyFloat.of_val _) as [t|]; [|discriminate]. cbn [py_bind].
  destruct (PyFloat.truediv _ _) as [t'|]; [|discriminate]. cbn [py_bind].
  intros [= <-]. cbn [registers parity].
  split; [reflexivity|]. split; [reflexivity|].
  split; [apply parse_parity_letter|]. split; eauto.
Qed.

Lemma parse_slaves_spec (slaves : list slave_config) :
  forall devices : list ModbusDevice,
    parse_slaves slaves = Ret devices ->
    registers <$> devices = List.filter has_registers (slave_registers <$> slaves)
    /\ Forall (fun device => device.(parity) ∈ ["N"; "E"; "O"]%string) devices.
Proof.
  induction slaves as [|slave rest IH]; intros devices.
  - intros [= <-]. now split.
  - cbn [parse_slaves].
    destruct (parse_slave slave) as [d|] eqn:Hslave; [|discriminate].
    cbn [py_bind].
    destruct (parse_slaves rest) as [ds|]; [|discriminate].
    cbn [py_bind]. intros [= <-].
    destruct (IH ds eq_refl) as [Hregs Hparity].
    apply parse_slave_spec in Hslave.
    destruct d as [device|].
    + destruct Hslave as (Hr & Hhas & Hpar & _).
      cbn [fmap list_fmap List.filter]. rewrite Hhas.
      split; [|now constructor].
      f_equal; [exact Hr|exact Hregs].
    + cbn [fmap list_fmap List.filter]. rewrite Hslave. cbn [has_registers].
      now split.
Qed.

(** X21. When a connector file parses, its devices are, in order, the
    slaves that have at least one accepted register, each with exactly
    those registers ([attributes] first, then [timeseries]); slaves
    without registers are left out; and every device has parity [N], [E]
    or [O]. *)
Theorem devices_have_registers (config : connector_config) (devices : list ModbusDevice) :
  parse_thingsboard_config config = Ret devices ->
  exists slaves : list slave_config,
    config.(cc_master) ≫= ms_slaves = Some slaves
    /\ registers <$> devices = List.filter has_registers (slave_registers <$> slaves)
    /\ Forall (fun device => device.(registers) <> []) devices
    /\ Forall (fun device => device.(parity) ∈ ["N"; "E"; "O"]%string) devices.
Proof.
  unfold parse_thingsboard_config.
  destruct config.(cc_master) as [master|]; [|discriminate].
  cbn [item py_bind mbind option_bind].
  destruct master.(ms_slaves) as [slaves|] eqn:Hslaves; [|discriminate].
  cbn [item py_bind]. intros Hparse.
  destruct (parse_slaves_spec slaves devices Hparse) as [Hregs Hparity].
  exists slaves. split; [reflexivity|]. split; [exact Hregs|].
  split; [|exact Hparity].
  apply Forall_forall. intros device Hin Hempty.
  assert (Hmem : device.(registers) ∈ registers <$> devices).
  { apply list_elem_of_fmap. exists device. now split. }
  rewrite Hregs in Hmem. apply list_elem_of_In, filter_In in Hmem as [_ Hhas].
  now rewrite Hempty in Hhas.
Qed.

Lemma devices_have_registers_witness :
  exists slaves : list slave_config,
    Some [a_slave (Some "/dev/ttyUSB0"%string) (Some 1)
            [a_reg_config None "16uint" 3] [a_reg_config (Some "flow"%string) "32float" 3];
          a_slave None None [a_reg_config None "16uint" 3] []]
    = Some slaves
    /\ [[ {| tag := "flow"; address := 0; function_code := 3; count := 2;
             data_type := "float32"; divider := PyFloat.one;
             multiplier := PyFloat.one |} ]]
       = List.filter has_registers (slave_registers <$> slaves)
    /\ Forall (fun device => device.(registers) <> [])
         [ {| name := "Device_1"; device_type := "Unknown"; unit_id := 1;
              port := "/dev/ttyUSB0"; baudrate := 9600; parity := "E"; stopbits := 1;
              bytesize := 8;
              timeout := S754_finite false 5044031582654956 (-57);
              poll_period := 1000; byte_order := "BIG"; word_order := "BIG";
              registers :=
                [ {| tag := "flow"; address := 0; function_code := 3; count := 2;
                     data_type := "float32"; divider := PyFloat.one;
                     multiplier := PyFloat.one |} ] |} ]
    /\ Forall (fun device => device.(parity) ∈ ["N"; "E"; "O"]%string)
         [ {| name := "Device_1"; device_type := "Unknown"; unit_id := 1;
              port := "/dev/ttyUSB0"; baudrate := 9600; parity := "E"; stopbits := 1;
              bytesize := 8;
              timeout := S754_finite false 5044031582654956 (-57);
              poll_period := 1000; byte_order := "BIG"; word_order := "BIG";
              registers :=
                [ {| tag := "flow"; address := 0; function_code := 3; count := 2;
                     data_type := "float32"; divider := PyFloat.one;
                     multiplier := PyFloat.one |} ] |} ].
Proof.
  exact (devices_have_registers
           {| cc_name := Some "usb0"%string;
              cc_master := Some {| ms_slaves := Some
                [a_slave (Some "/dev/ttyUSB0"%string) (Some 1)
                   [a_reg_config None "16uint" 3]
                   [a_reg_config (Some "flow"%string) "32float" 3];
                 a_slave None None [a_reg_config None "16uint" 3] []] |} |}
           _ eq_refl).
Defined.

(** X22. One slave that has an accepted register but no [port] or no
    [unitId] makes the whole connector file fail: no device of the file is
    returned. *)
Theorem incomplete_slave_fails_file (config : connector_config) (master : master_config)
    (slaves : list slave_config) (slave : slave_config) :
  config.(cc_master) = Some master ->
  master.(ms_slaves) = Some slaves ->
  slave ∈ slaves ->
  slave_registers slave <> [] ->
  slave.(sl_port) = None \/ slave.(sl_unitId) = None ->
  exists e : exn, parse_thingsboard_config config = Raise e.
Proof.
  intros Hmaster Hslaves Hin Hregs Hmissing.
  unfold parse_thingsboard_config. rewrite Hmaster. cbn [item py_bind].
  rewrite Hslaves. cbn [item py_bind].
  assert (Hslave : parse_slave slave = Raise KeyError).
  { unfold parse_slave. destruct (slave_registers slave); [congruence|].
    destruct Hmissing as [Hm|Hm]; rewrite Hm;
      destruct slave.(sl_unitId); reflexivity. }
  clear Hslaves. induction slaves as [|s rest IH]; [set_solver|].
  cbn [parse_slaves].
  destruct (parse_slave s) as [d|e] eqn:Hs; [|eauto].
  cbn [py_bind].
  apply elem_of_cons in Hin as [<-|Hin]; [congruence|].
  destruct (IH Hin) as [e He]. rewrite He. eauto.
Qed.

Lemma incomplete_slave_fails_file_witness :
  exists e : exn,
    parse_thingsboard_config
      {| cc_name := None;
         cc_master := Some {| ms_slaves := Some
           [a_slave (Some "/dev/ttyUSB0"%string) (Some 1)
              [a_reg_config (Some "flow"%string) "32float" 3] [];
            a_slave None (Some 2) [a_reg_config (Some "level"%string) "16int" 3] []] |} |}
    = Raise e.
Proof.
  apply (incomplete_slave_fails_file
           {| cc_name := None;
              cc_master := Some {| ms_slaves := Some
                [a_slave (Some "/dev/ttyUSB0"%string) (Some 1)
                   [a_reg_config (Some "flow"%string) "32float" 3] [];
                 a_slave None (Some 2)
                   [a_reg_config (Some "level"%string) "16int" 3] []] |} |}
           _ _
           (a_slave None (Some 2) [a_reg_config (Some "level"%string) "16int" 3] [])
           eq_refl eq_refl).
  - set_solver.
  - discriminate.
  - now left.
Defined.

End MoreConfiguration.


(** ** More on publishing *)

Section MorePublishing.
Import Config Poller Publisher.

Lemma length_tag_messages (base_topic device_name timestamp : string) (data : dict pyval) :
  length (tag_messages base_topic device_name timestamp data) = length data.
Proof. unfold tag_messages. apply length_map. Qed.

(** A loop over the per-tag messages that no exception ends has sent them
    all. *)
Lemma send_tags_all (client : message -> publish_outcome) (msgs : list message) :
  fst (send_tags client msgs) = None -> snd (send_tags client msgs) = msgs.
Proof.
  induction msgs as [|m msgs IH]; [reflexivity|]. cbn [send_tags].
  destruct (client m); [|discriminate].
  destruct (send_tags client msgs) as [r sent]. cbn [fst snd] in *.
  intros Hr. now rewrite IH.
Qed.

(** X23. [publish] sends nothing when the session is down; when it
    returns [True] the session is up, the reading has values and the
    messages are the status message, the telemetry message and one
    message for each value; when it returns [False] at most the status
    and the telemetry message were sent. *)
Theorem publish_messages (connected : bool) (client : message -> publish_outcome)
    (timestamp : string) (device_data : Reading) (base_topic : string) :
  (connected = false ->
   publish connected client timestamp device_data base_topic = (Ret false, []))
  /\ (fst (publish connected client timestamp device_data base_topic) = Ret true ->
      connected = true
      /\ device_data.(rd_data) <> []
      /\ length (snd (publish connected client timestamp device_data base_topic))
         = (2 + length device_data.(rd_data))%nat)
  /\ (fst (publish connected client timestamp device_data base_topic) = Ret false ->
      (length (snd (publish connected client timestamp device_data base_topic)) <= 2)%nat).
Proof.
  unfold publish. destruct connected; cbn [negb].
  - split; [discriminate|].
    destruct (client _) as [rc|e]; cbn [fst snd length];
      [|split; [discriminate|intros _; lia]].
    destruct device_data.(rd_data) as [|kv data]; cbn [fst snd length].
    + split; [discriminate|]. intros _. lia.
    + destruct (client _) as [[|]|e]; cbn [fst snd length].
      * pose proof (send_tags_all client
                      (tag_messages base_topic (replace_spaces device_data.(rd_device))
                         timestamp (kv :: data))) as Hall.
        destruct (send_tags client _) as [raised sent]. cbn [fst snd] in *.
        destruct raised as [e|]; cbn [length].
        -- split; [discriminate|]. discriminate.
        -- split; [|discriminate]. intros _. split; [reflexivity|].
           split; [discriminate|].
           rewrite (Hall eq_refl), length_tag_messages. reflexivity.
      * split; [discriminate|]. intros _. lia.
      * split; [discriminate|]. intros _. lia.
  - split; [reflexivity|]. cbn [fst snd length]. split; [discriminate|]. intros _. lia.
Qed.

Lemma publish_messages_witness :
  length (snd (publish true wildcard_checking_client "2024-05-01T10:00:00Z"
                 {| rd_device := "pump 1"; rd_device_type := "pump"; rd_unit_id := 1;
                    rd_status := "connected";
                    rd_data := [("temp"%string, PInt 25);
                                ("run"%string, PFloat PyFloat.one)] |}
                 "modbus"))
  = 4%nat.
Proof.
  refine (proj2 (proj2 (proj1 (proj2 (publish_messages true wildcard_checking_client
           "2024-05-01T10:00:00Z"
           {| rd_device := "pump 1"; rd_device_type := "pump"; rd_unit_id := 1;
              rd_status := "connected";
              rd_data := [("temp"%string, PInt 25);
                          ("run"%string, PFloat PyFloat.one)] |}
           "modbus")) _))).
  vm_compute. reflexivity.
Defined.

(** X24. All the messages of one call of [publish] carry the same
    timestamp, the one read at the start of the call, and all are
    retained. *)
Theorem one_timestamp (connected : bool) (client : message -> publish_outcome)
    (timestamp : string) (device_data : Reading) (base_topic : string) :
  Forall (fun m => payload_timestamp m.(msg_payload) = timestamp
                   /\ m.(msg_retain) = true)
    (snd (publish connected client timestamp device_data base_topic)).
Proof.
  assert (Htags : forall device_name data,
    Forall (fun m => payload_timestamp m.(msg_payload) = timestamp
                     /\ m.(msg_retain) = true)
      (snd (send_tags client (tag_messages base_topic device_name timestamp data)))).
  { intros device_name data. induction data as [|[tag value] data IH];
      [constructor|]. cbn [tag_messages map send_tags] in *.
    destruct (client _); [|constructor].
    destruct (send_tags client _) as [r sent]. cbn [snd] in *.
    constructor; [now split|exact IH]. }
  unfold publish. destruct connected; cbn [negb snd]; [|constructor].
  destruct (client _) as [rc|e]; cbn [snd]; [|constructor].
  destruct device_data.(rd_data) as [|kv data]; cbn [snd].
  - repeat constructor.
  - destruct (client _) as [[|]|e]; cbn [snd].
    + specialize (Htags (replace_spaces device_data.(rd_device)) (kv :: data)).
      destruct (send_tags client _) as [r sent]. cbn [snd] in *.
      constructor; [now split|]. constructor; [now split|]. exact Htags.
    + repeat constructor.
    + repeat constructor.
Qed.

(** X25. The device name in a topic holds no space: [replace_spaces]
    removes every space, keeps the length of the name, and leaves a name
    without space as it is. *)
Theorem device_name_sanitized (s : string) :
  has_space (replace_spaces s) = false
  /\ String.length (replace_spaces s) = String.length s
  /\ (has_space s = false -> replace_spaces s = s).
Proof.
  induction s as [|c s (IHspace & IHlen & IHid)]; [now split|].
  cbn [replace_spaces has_space String.length].
  destruct (Ascii.eqb c " ") eqn:Hc.
  - split; [exact IHspace|]. split; [now rewrite IHlen|]. discriminate.
  - rewrite Hc. split; [exact IHspace|]. split; [now rewrite IHlen|].
    cbn [orb]. intros Hs. now rewrite IHid.
Qed.

(** X26. When [publish] returns [True], every value of the reading has
    its own message, on the topic made of the base topic, the device name
    and the tag, with quality of service 0. *)
Theorem value_fan_out (connected : bool) (client : message -> publish_outcome)
    (timestamp : string) (device_data : Reading) (base_topic : string)
    (tag : string) (value : pyval) :
  fst (publish connected client timestamp device_data base_topic) = Ret true ->
  (tag, value) ∈ device_data.(rd_data) ->
  {| msg_topic :=
       (base_topic +:+ "/" +:+ replace_spaces device_data.(rd_device) +:+ "/" +:+ tag)%string;
     msg_payload := ValuePayload value timestamp;
     msg_qos := 0;
     msg_retain := true |}
  ∈ snd (publish connected client timestamp device_data base_topic).
Proof.
  unfold publish. destruct connected; cbn [negb fst]; [|discriminate].
  destruct (client _) as [rc|e]; cbn [fst]; [|discriminate].
  destruct device_data.(rd_data) as [|kv data]; cbn [fst]; [discriminate|].
  destruct (client _) as [[|]|e]; cbn [fst snd]; [|discriminate|discriminate].
  pose proof (send_tags_all client
                (tag_messages base_topic (replace_spaces device_data.(rd_device))
                   timestamp (kv :: data))) as Hall.
  destruct (send_tags client _) as [raised sent]. cbn [fst snd] in *.
  destruct raised as [e|]; [discriminate|].
  intros _ Hin. do 2 apply list_elem_of_further.
  rewrite (Hall eq_refl). unfold tag_messages. apply list_elem_of_fmap.
  exists (tag, value). now split.
Qed.

Lemma value_fan_out_witness :
  {| msg_topic := "modbus/pump_1/temp"; msg_payload := ValuePayload (PInt 25) "t0";
     msg_qos := 0; msg_retain := true |}
  ∈ snd (publish true wildcard_checking_client "t0"
           {| rd_device := "pump 1"; rd_device_type := "pump"; rd_unit_id := 1;
              rd_status := "connected"; rd_data := [("temp"%string, PInt 25)] |}
           "modbus").
Proof.
  refine (value_fan_out true wildcard_checking_client "t0"
           {| rd_device := "pump 1"; rd_device_type := "pump"; rd_unit_id := 1;
              rd_status := "connected"; rd_data := [("temp"%string, PInt 25)] |}
           "modbus" "temp" (PInt 25) _ _).
  - vm_compute. reflexivity.
  - set_solver.
Defined.

End MorePublishing.

(** ** More on the bridge *)

Section MoreBridge.
Import Config Poller Publisher Bridge.

Lemma start_polling_from_spec (devices : list ModbusDevice) :
  forall i n : nat,
    (i + length devices = n)%nat ->
    startup_delays (start_polling_from i n devices) = (length devices - 1)%nat
    /\ started_threads (start_polling_from i n devices) = name <$> devices
    /\ last (start_polling_from i n devices)
       = (fun device => ThreadStarted device.(name)) <$> last devices.
Proof.
  induction devices as [|device rest IH]; intros i n Hn; [now split|].
  cbn [start_polling_from].
  destruct (IH (S i) n) as (Hdelays & Hthreads & Hlast);
    [cbn [length] in Hn; lia|].
  destruct rest as [|device' rest].
  - replace (Z.of_nat i <? Z.of_nat n - 1) with false
      by (symmetry; apply Z.ltb_ge; cbn [length] in Hn; lia).
    now split.
  - replace (Z.of_nat i <? Z.of_nat n - 1) with true
      by (symmetry; apply Z.ltb_lt; cbn [length] in Hn; lia).
    cbn [app startup_delays started_threads].
    rewrite Hdelays, Hthreads. split; [cbn [length]; lia|]. split; [reflexivity|].
    rewrite (last_cons_cons device device' rest).
    rewrite (last_cons (ThreadStarted device.(name))), (last_cons StartupDelay), Hlast.
    destruct (last (device' :: rest)) as [d|] eqn:Hd; [reflexivity|].
    apply last_None in Hd. discriminate.
Qed.

(** X27. [start_polling] starts one thread for each device, in the order
    of the devices, and sleeps the start-up delay between two starts only:
    one delay less than there are devices, the last event being the start
    of the last device. *)
Theorem startup_stagger (devices : list ModbusDevice) :
  startup_delays (start_polling devices) = (length devices - 1)%nat
  /\ started_threads (start_polling devices) = name <$> devices
  /\ last (start_polling devices)
     = (fun device => ThreadStarted device.(name)) <$> last devices.
Proof. apply start_polling_from_spec. reflexivity. Qed.

Lemma cycle_ends_app (tr tr' : list event) :
  cycle_ends (tr ++ tr') = (cycle_ends tr + cycle_ends tr')%nat.
Proof.
  induction tr as [|ev tr IH]; [reflexivity|].
  destruct ev as [l|l|d t|[]|m]; simpl; rewrite ?IH; reflexivity.
Qed.

Lemma cycle_ends_sweep (device : ModbusDevice) (regs : list ModbusRegister) :
  cycle_ends (sweep_events device regs) = O.
Proof. induction regs as [|r regs IH]; [reflexivity|exact IH]. Qed.

Lemma cycle_ends_publish (ms : list message) : cycle_ends (map EvPublish ms) = O.
Proof. induction ms as [|m ms IH]; [reflexivity|exact IH]. Qed.

Lemma cycle_ends_poll (self : ModbusPoller) (device : ModbusDevice) (env : bus) :
  consistent self -> cycle_ends (snd (poll_device self device env)) = O.
Proof.
  intros Hcons. pose proof (poll_device_cases self device env Hcons) as Hcases.
  destruct (acquired self device env) as [[client|]|e].
  - destruct Hcases as (data & sc & _ & _ & _ & ->).
    cbn [app cycle_ends]. now rewrite cycle_ends_app, cycle_ends_sweep.
  - now destruct Hcases as [_ ->].
  - now destruct Hcases as [_ ->].
Qed.

Lemma cycle_ends_sleep (env : cycle_env) (device : ModbusDevice) :
  cycle_ends (sleep_interval env device) = 1%nat.
Proof.
  unfold sleep_interval. destruct (poll_interval device); [|reflexivity].
  now destruct (_ || _).
Qed.

(** Every path through one iteration ends with one sleep, the poll
    interval or the cooldown. *)
Lemma cycle_ends_cycle (poller : ModbusPoller) (device : ModbusDevice)
    (base_topic : string) (env : cycle_env) :
  consistent poller ->
  cycle_ends (snd (run_cycle poller device base_topic env)) = 1%nat.
Proof.
  intros Hcons. pose proof (cycle_ends_poll poller device env.(serial) Hcons) as Hpoll.
  unfold run_cycle.
  destruct (poll_device poller device env.(serial)) as [[r poller'] tr].
  cbn [snd] in Hpoll. destruct r as [rd|e]; cbn [snd].
  - destruct rd.(rd_data) as [|kv data]; cbn [snd].
    + now rewrite cycle_ends_app, Hpoll, cycle_ends_sleep.
    + destruct (publish _ _ _ _ _) as [published sent].
      destruct published as [b|e]; cbn [snd];
        rewrite !cycle_ends_app, Hpoll, cycle_ends_publish, ?cycle_ends_sleep;
        reflexivity.
  - now rewrite cycle_ends_app, Hpoll.
Qed.

Lemma cycle_ends_loop (device : ModbusDevice) (base_topic : string)
    (envs : list cycle_env) :
  forall poller : ModbusPoller,
    consistent poller ->
    cycle_ends (snd (run_loop poller device base_topic envs)) = length envs.
Proof.
  induction envs as [|env envs IH]; intros poller Hcons; [reflexivity|].
  cbn [run_loop length].
  pose proof (cycle_ends_cycle poller device base_topic env Hcons) as Hcycle.
  destruct (run_cycle_sleeps poller device base_topic env Hcons) as (Hcons' & _).
  destruct (run_cycle poller device base_topic env) as [poller' tr].
  cbn [fst snd] in *. specialize (IH poller' Hcons').
  destruct (run_loop poller' device base_topic envs) as [poller'' tr'].
  cbn [snd] in *. rewrite cycle_ends_app, Hcycle, IH. reflexivity.
Qed.

(** X28. When the poll interval of the device can be computed, a run of
    [n] iterations of the polling loop holds exactly [n] sleeps that end
    a cycle: every iteration ends with one such sleep, the poll interval
    or the cooldown, whichever way it goes (a poll that faults, a port
    that does not open, a client that raises in [publish], a sleep that
    is refused), never none and never both. When the poll interval cannot
    be computed, the thread ends in the log line before its loop and
    sleeps not once. *)
Theorem loop_never_ends_early (poller : ModbusPoller) (device : ModbusDevice)
    (base_topic : string) (envs : list cycle_env) :
  consistent poller ->
  cycle_ends (snd (run poller device base_topic envs))
  = match poll_interval device with
    | Ret _ => length envs
    | Raise _ => O
    end.
Proof.
  intros Hcons. unfold run.
  destruct (poll_interval device) as [seconds|e]; [|reflexivity].
  now apply cycle_ends_loop.
Qed.

Lemma loop_never_ends_early_witness :
  cycle_ends
    (snd (run fresh_poller two_register_device "modbus"
            [a_cycle (a_bus ConnectFault silent) true;
             a_cycle (a_bus ConnectRefused silent) true;
             a_cycle (a_bus ConnectOk plant) false]))
  = 3%nat.
Proof.
  exact (loop_never_ends_early fresh_poller two_register_device "modbus"
           [a_cycle (a_bus ConnectFault silent) true;
            a_cycle (a_bus ConnectRefused silent) true;
            a_cycle (a_bus ConnectOk plant) false] fresh_consistent).
Defined.

(** A poll period of 10^13 ms, more than [time.sleep] takes: the cycle
    ends with the cooldown. *)
Example long_interval_refused :
  sleep_interval (a_cycle (a_bus ConnectOk plant) true)
    {| name := "pump 1"; device_type := "pump"; unit_id := 1;
       port := "/dev/ttyUSB0"; baudrate := 9600; parity := "N";
       stopbits := 1; bytesize := 8; timeout := S754_zero false;
       poll_period := 10 ^ 13; byte_order := "BIG"; word_order := "BIG";
       registers := [] |}
  = [EvSleep Cooldown].
Proof. vm_compute. reflexivity. Qed.

(** A poll period too large for a float: the thread ends before its first
    cycle. *)
Example thread_ends_in_log_line :
  run fresh_poller
    {| name := "pump 1"; device_type := "pump"; unit_id := 1;
       port := "/dev/ttyUSB0"; baudrate := 9600; parity := "N";
       stopbits := 1; bytesize := 8; timeout := S754_zero false;
       poll_period := 10 ^ 400; byte_order := "BIG"; word_order := "BIG";
       registers := [a_register "temp" 3 1 "uint16" 1 10] |}
    "modbus" [a_cycle (a_bus ConnectOk plant) true]
  = (fresh_poller, []).
Proof. vm_compute. reflexivity. Qed.

(** X30. What a cycle costs when no client is obtained: when the
    connection faults, nothing is read or published, the poller is
    unchanged and the thread sleeps the cooldown; when the port merely
    does not open, nothing is read or published either, the poller is
    unchanged and the thread sleeps as after any cycle. *)
Theorem cycle_without_client (poller : ModbusPoller) (device : ModbusDevice)
    (base_topic : string) (env : cycle_env) :
  (forall e : exn,
     acquired poller device env.(serial) = Raise e ->
     run_cycle poller device base_topic env
     = (poller, [EvLock CreateLock; EvUnlock CreateLock; EvSleep Cooldown]))
  /\ (acquired poller device env.(serial) = Ret None ->
      run_cycle poller device base_topic env
      = (poller, [EvLock CreateLock; EvUnlock CreateLock] ++ sleep_interval env device)).
Proof.
  unfold acquired, run_cycle, poll_device, get_client.
  destruct (poller.(clients) !! key_of device) as [c|]; [split; [intros e|]; discriminate|].
  destruct (env.(serial).(connect) _); cbn [fst snd];
    (split; [intros e|]); try discriminate; intros _; reflexivity.
Qed.

Lemma cycle_without_client_witness :
  run_cycle fresh_poller two_register_device "modbus"
    (a_cycle (a_bus ConnectFault silent) true)
  = (fresh_poller, [EvLock CreateLock; EvUnlock CreateLock; EvSleep Cooldown])
  /\ run_cycle fresh_poller two_register_device "modbus"
       (a_cycle (a_bus ConnectRefused silent) true)
     = (fresh_poller,
        [EvLock CreateLock; EvUnlock CreateLock; EvSleep (Interval 1000)]).
Proof.
  split.
  - apply (proj1 (cycle_without_client fresh_poller two_register_device "modbus"
                    (a_cycle (a_bus ConnectFault silent) true)) IOFault).
    reflexivity.
  - apply (proj2 (cycle_without_client fresh_poller two_register_device "modbus"
                    (a_cycle (a_bus ConnectRefused silent) true))).
    reflexivity.
Defined.

End MoreBridge.
